(** * FlowBoard: the optimistic-update store of the kanban board

    A shallow embedding of [src/store/kanbanStore.js] and
    [src/utils/mockAPI.js], together with the three component handlers that
    call into the store ([AddTaskForm.handleSubmit], [TaskCard.handleSave],
    [Column.handleDrop]).

    Every store action is an [async] function with exactly one [await]: the
    call to the mock API.  The part before the [await] runs synchronously when
    the action is invoked; the part after it (the body of [try] or of [catch])
    runs when the mock API settles.  The embedding therefore splits every
    action into a _call_ phase, which leaves a continuation in [inflight], and
    a _settle_ phase, which consumes one continuation together with the values
    the mock API draws from its environment ([Math.random], [Date.now]).

    The [persist] middleware only mirrors [user] and [tasks] into local
    storage and is left out. *)

From Stdlib Require Import List String Ascii ZArith QArith Bool Lia.
From Stdlib Require Import DecimalString Sorted Permutation.
Import ListNotations.

Local Open Scope string_scope.
Local Open Scope list_scope.
Local Open Scope Z_scope.

(** ** JavaScript strings and numbers

    A JavaScript string is embedded as a [string] whose characters are read as
    code units below 256.  Numbers that come from [Date.now()] are integral,
    so they are embedded as [Z]. *)
Module JS.

(** The code units below 256 that [String.prototype.trim] strips:
    TAB, LF, VT, FF, CR, SPACE and NO-BREAK SPACE. *)
Definition isWhiteSpace (c : ascii) : bool :=
  let n := N_of_ascii c in
  (((9 <=? n) && (n <=? 13)) || (n =? 32) || (n =? 160))%N.

Fixpoint trimStart (s : string) : string :=
  match s with
  | EmptyString => EmptyString
  | String c s' => if isWhiteSpace c then trimStart s' else s
  end.

Fixpoint trimEnd (s : string) : string :=
  match s with
  | EmptyString => EmptyString
  | String c s' =>
      match trimEnd s' with
      | EmptyString => if isWhiteSpace c then EmptyString else String c EmptyString
      | r => String c r
      end
  end.

(** [s.trim()] *)
Definition trim (s : string) : string := trimEnd (trimStart s).

(** Truthiness of a string: only the empty string is falsy. *)
Definition truthy (s : string) : bool := negb (s =? "")%string.

(** [a || b] on strings. *)
Definition or_else (a b : string) : string := if truthy a then a else b.

(** [n.toString()] and the interpolation of [n] in a template literal, for
    an integral [n] in the range of [Date.now()]: the decimal digits, with a
    leading minus sign below zero. *)
Definition numberToString (n : Z) : string :=
  NilZero.string_of_int (Z.to_int n).

End JS.

(** ** Data model *)

(** A task object [{ id, title, column, createdAt }]. *)
Record Task : Type := mkTask
  { id : string;
    title : string;
    column : string;
    createdAt : Z }.

(** The [user] object [{ username, loggedInAt }]. *)
Record User : Type := mkUser
  { username : string;
    loggedInAt : Z }.

(** [const COLUMNS = { TODO: 'todo', IN_PROGRESS: 'inProgress', DONE: 'done' }] *)
Module COLUMNS.
Definition TODO : string := "todo".
Definition IN_PROGRESS : string := "inProgress".
Definition DONE : string := "done".
End COLUMNS.

(** Object spreads that override one field. *)
Definition with_id (t : Task) (i : string) : Task :=
  mkTask i (title t) (column t) (createdAt t).
Definition with_title (t : Task) (s : string) : Task :=
  mkTask (id t) s (column t) (createdAt t).
Definition with_column (t : Task) (c : string) : Task :=
  mkTask (id t) (title t) c (createdAt t).

(** ** The mock API ([src/utils/mockAPI.js]) *)
Module MockAPI.

Definition API_LATENCY : Z := 1500.
Definition FAILURE_RATE : Q := 2 # 10.

(** [class MockAPIError extends Error] *)
Record MockAPIError : Type := mkError
  { message : string;
    name : string;
    operation : string }.

Definition newMockAPIError (msg op : string) : MockAPIError :=
  mkError msg "MockAPIError" op.

(** What one call reads from its environment once the delay has elapsed:
    the [Math.random()] of [shouldFail], and, for [addTask], the
    [Date.now()] and the [Math.random().toString(36).substr(2, 9)] that
    make up the server id. *)
Record Draws : Type := mkDraws
  { failDraw : Q;
    serverNow : Z;
    idSuffix : string }.

(** [const shouldFail = () => Math.random() < FAILURE_RATE] *)
Definition shouldFail (random : Q) : bool :=
  negb (Qle_bool FAILURE_RATE random).

(** A settled promise. *)
Inductive Settled (A : Type) : Type :=
| Resolved (a : A)
| Rejected (e : MockAPIError).
Arguments Resolved {A} a.
Arguments Rejected {A} e.

Record MoveAck : Type := mkMoveAck
  { mv_taskId : string; mv_fromColumn : string; mv_toColumn : string }.
Record DeleteAck : Type := mkDeleteAck
  { del_taskId : string }.
Record UpdateAck : Type := mkUpdateAck
  { upd_taskId : string; upd_title : string }.

(** [Date.now().toString() + Math.random().toString(36).substr(2, 9)] *)
Definition mintId (d : Draws) : string :=
  (JS.numberToString (serverNow d) ++ idSuffix d)%string.

Definition addTask (d : Draws) (task : Task) : Settled Task :=
  if shouldFail (failDraw d)
  then Rejected (newMockAPIError "Failed to add task. Please try again." "add")
  else Resolved (with_id task (mintId d)).

Definition moveTask (d : Draws) (taskId fromColumn toColumn : string)
  : Settled MoveAck :=
  if shouldFail (failDraw d)
  then Rejected (newMockAPIError "Failed to move task. Please try again." "move")
  else Resolved (mkMoveAck taskId fromColumn toColumn).

Definition deleteTask (d : Draws) (taskId : string) : Settled DeleteAck :=
  if shouldFail (failDraw d)
  then Rejected (newMockAPIError "Failed to delete task. Please try again." "delete")
  else Resolved (mkDeleteAck taskId).

Definition updateTask (d : Draws) (taskId newTitle : string)
  : Settled UpdateAck :=
  if shouldFail (failDraw d)
  then Rejected (newMockAPIError "Failed to update task. Please try again." "update")
  else Resolved (mkUpdateAck taskId newTitle).

End MockAPI.

(** ** The store ([src/store/kanbanStore.js]) *)

(** A call made to the mock API. *)
Inductive Request : Type :=
| ReqAddTask (task : Task)
| ReqMoveTask (taskId fromColumn toColumn : string)
| ReqDeleteTask (taskId : string)
| ReqUpdateTask (taskId newTitle : string).

(** The rest of an action that is suspended at its [await], with the local
    variables it has captured. *)
Inductive Continuation : Type :=
| AwaitAdd (tempId : string) (optimisticTask : Task)
| AwaitMove (taskId originalColumn targetColumn : string)
| AwaitDelete (taskId : string) (taskToDelete : Task)
| AwaitUpdate (taskId originalTitle newTitle : string).

(** [toast.success(msg)] and [toast.error(msg)] *)
Inductive Toast : Type :=
| ToastSuccess (msg : string)
| ToastError (msg : string).

(** The store's state ([tasks], [user]) and what surrounds it: the actions
    suspended at their [await], the log of mock API calls and the log of
    toasts. *)
Record World : Type := mkWorld
  { tasks : list Task;
    user : option User;
    inflight : list Continuation;
    requests : list Request;
    toasts : list Toast }.

(** [set((state) => ({ tasks: f(state.tasks) }))] *)
Definition set_tasks (f : list Task -> list Task) (w : World) : World :=
  mkWorld (f (tasks w)) (user w) (inflight w) (requests w) (toasts w).

Definition set_user (u : option User) (w : World) : World :=
  mkWorld (tasks w) u (inflight w) (requests w) (toasts w).

(** Calling the mock API and suspending on its promise. *)
Definition await (r : Request) (k : Continuation) (w : World) : World :=
  mkWorld (tasks w) (user w) (inflight w ++ [k]) (requests w ++ [r]) (toasts w).

Definition toast (t : Toast) (w : World) : World :=
  mkWorld (tasks w) (user w) (inflight w) (requests w) (toasts w ++ [t]).

(** The three [Date.now()] readings taken while the module is evaluated. *)
Record LoadClock : Type := mkLoadClock
  { loadNow1 : Z; loadNow2 : Z; loadNow3 : Z }.

Definition initialTasks (lc : LoadClock) : list Task :=
  [ mkTask "1" "Design landing page mockup" COLUMNS.TODO (loadNow1 lc);
    mkTask "2" "Implement authentication flow" COLUMNS.IN_PROGRESS
           (loadNow2 lc - 1000);
    mkTask "3" "Setup project repository" COLUMNS.DONE (loadNow3 lc - 2000) ].

(** The store as [create] builds it, with nothing in flight. *)
Definition init (lc : LoadClock) : World :=
  mkWorld (initialTasks lc) None [] [] [].

(** [tasks.find((task) => task.id === taskId)] *)
Definition findTask (taskId : string) (l : list Task) : option Task :=
  find (fun task => (id task =? taskId)%string) l.

(** [Array.prototype.sort] with the comparator [(a, b) => a.createdAt -
    b.createdAt].  The comparator is consistent, and the sort is stable, so
    the result is determined; it is computed here by insertion from the
    right, which keeps equal elements in their given order. *)
Definition compareCreatedAt (a b : Task) : Z := createdAt a - createdAt b.

Fixpoint insertByCreatedAt (a : Task) (l : list Task) : list Task :=
  match l with
  | [] => [a]
  | b :: l' =>
      if compareCreatedAt a b <=? 0 then a :: b :: l'
      else b :: insertByCreatedAt a l'
  end.

Fixpoint sortByCreatedAt (l : list Task) : list Task :=
  match l with
  | [] => []
  | a :: l' => insertByCreatedAt a (sortByCreatedAt l')
  end.

(** *** Session *)

Definition login (username : string) (now : Z) (w : World) : World :=
  set_user (Some (mkUser username now)) w.

Definition logout (lc : LoadClock) (w : World) : World :=
  mkWorld (initialTasks lc) None (inflight w) (requests w) (toasts w).

(** *** Call phases: from the invocation up to the [await] *)

(** [now1] is the [Date.now()] of the temporary id, [now2] that of
    [createdAt]. *)
Definition mintTempId (now1 : Z) : string :=
  ("temp-" ++ JS.numberToString now1)%string.

Definition addTask (title : string) (now1 now2 : Z) (w : World) : World :=
  let tempId := mintTempId now1 in
  let optimisticTask := mkTask tempId title COLUMNS.TODO now2 in
  await (ReqAddTask optimisticTask) (AwaitAdd tempId optimisticTask)
        (set_tasks (fun ts => ts ++ [optimisticTask]) w).

(** The update shared by the optimistic step and the rollback of [moveTask]. *)
Definition setColumn (taskId c : string) (ts : list Task) : list Task :=
  map (fun task => if (id task =? taskId)%string then with_column task c else task) ts.

(** The update shared by the optimistic step and the rollback of
    [updateTaskTitle]. *)
Definition setTitle (taskId s : string) (ts : list Task) : list Task :=
  map (fun task => if (id task =? taskId)%string then with_title task s else task) ts.

(** [state.tasks.filter((task) => task.id !== taskId)] *)
Definition dropId (taskId : string) (ts : list Task) : list Task :=
  filter (fun task => negb (id task =? taskId)%string) ts.

Definition moveTask (taskId targetColumn : string) (w : World) : World :=
  match findTask taskId (tasks w) with
  | None => w
  | Some taskToMove =>
      let originalColumn := column taskToMove in
      await (ReqMoveTask taskId originalColumn targetColumn)
            (AwaitMove taskId originalColumn targetColumn)
            (set_tasks (setColumn taskId targetColumn) w)
  end.

Definition deleteTask (taskId : string) (w : World) : World :=
  match findTask taskId (tasks w) with
  | None => w
  | Some taskToDelete =>
      await (ReqDeleteTask taskId) (AwaitDelete taskId taskToDelete)
            (set_tasks (dropId taskId) w)
  end.

Definition updateTaskTitle (taskId newTitle : string) (w : World) : World :=
  match findTask taskId (tasks w) with
  | None => w
  | Some taskToUpdate =>
      let originalTitle := title taskToUpdate in
      await (ReqUpdateTask taskId newTitle)
            (AwaitUpdate taskId originalTitle newTitle)
            (set_tasks (setTitle taskId newTitle) w)
  end.

(** [getTasksByColumn] *)
Definition getTasksByColumn (c : string) (w : World) : list Task :=
  filter (fun task => (column task =? c)%string) (tasks w).

(** *** Settle phases: the body of [try] after the [await], or of [catch] *)

(** The replacement made when [mockAPI.addTask] resolves. *)
Definition replaceTemp (tempId : string) (serverTask : Task) (ts : list Task)
  : list Task :=
  map (fun task =>
         if (id task =? tempId)%string then with_column serverTask COLUMNS.TODO
         else task) ts.

(** The rollback of [deleteTask]. *)
Definition reinsert (taskToDelete : Task) (ts : list Task) : list Task :=
  sortByCreatedAt (ts ++ [taskToDelete]).

Definition resume (k : Continuation) (d : MockAPI.Draws) (w : World) : World :=
  match k with
  | AwaitAdd tempId optimisticTask =>
      match MockAPI.addTask d optimisticTask with
      | MockAPI.Resolved serverTask =>
          toast (ToastSuccess "Task added successfully!")
                (set_tasks (replaceTemp tempId serverTask) w)
      | MockAPI.Rejected error =>
          toast (ToastError (JS.or_else (MockAPI.message error) "Failed to add task"))
                (set_tasks (dropId tempId) w)
      end
  | AwaitMove taskId originalColumn targetColumn =>
      match MockAPI.moveTask d taskId originalColumn targetColumn with
      | MockAPI.Resolved _ =>
          toast (ToastSuccess "Task moved successfully!") w
      | MockAPI.Rejected error =>
          toast (ToastError (JS.or_else (MockAPI.message error) "Failed to move task"))
                (set_tasks (setColumn taskId originalColumn) w)
      end
  | AwaitDelete taskId taskToDelete =>
      match MockAPI.deleteTask d taskId with
      | MockAPI.Resolved _ =>
          toast (ToastSuccess "Task deleted successfully!") w
      | MockAPI.Rejected error =>
          toast (ToastError (JS.or_else (MockAPI.message error) "Failed to delete task"))
                (set_tasks (reinsert taskToDelete) w)
      end
  | AwaitUpdate taskId originalTitle newTitle =>
      match MockAPI.updateTask d taskId newTitle with
      | MockAPI.Resolved _ =>
          toast (ToastSuccess "Task updated successfully!") w
      | MockAPI.Rejected error =>
          toast (ToastError (JS.or_else (MockAPI.message error) "Failed to update task"))
                (set_tasks (setTitle taskId originalTitle) w)
      end
  end.

Fixpoint removeNth {A : Type} (n : nat) (l : list A) : list A :=
  match n, l with
  | _, [] => []
  | O, _ :: l' => l'
  | S n', a :: l' => a :: removeNth n' l'
  end.

(** The [n]-th suspended action resumes; nothing happens when there is no
    such action. *)
Definition settle (n : nat) (d : MockAPI.Draws) (w : World) : World :=
  match nth_error (inflight w) n with
  | None => w
  | Some k =>
      resume k d
        (mkWorld (tasks w) (user w) (removeNth n (inflight w)) (requests w)
                 (toasts w))
  end.

(** ** The component handlers that call the store *)
Module UI.

(** [AddTaskForm.handleSubmit], with the text of the input field. *)
Definition handleSubmit (taskTitle : string) (now1 now2 : Z) (w : World)
  : World :=
  if negb (JS.truthy (JS.trim taskTitle)) then w
  else addTask (JS.trim taskTitle) now1 now2 w.

(** [TaskCard.handleSave], with the card's task and the text of the edit
    field. *)
Definition handleSave (task : Task) (editTitle : string) (w : World) : World :=
  if JS.truthy (JS.trim editTitle) && negb (editTitle =? title task)%string
  then updateTaskTitle (id task) (JS.trim editTitle) w
  else w.

(** [Column.handleDrop], with the column's id and the two values carried
    by the drag. *)
Definition handleDrop (columnId taskId sourceColumn : string) (w : World)
  : World :=
  if negb (sourceColumn =? columnId)%string then moveTask taskId columnId w
  else w.

(** [LandingPage.handleLogin] *)
Definition handleLogin (username : string) (now : Z) (w : World) : World :=
  if negb (JS.truthy (JS.trim username)) then w
  else login (JS.trim username) now w.

End UI.

(** ** Runs of the store *)

Inductive Event : Type :=
| EvLogin (username : string) (now : Z)
| EvLogout
| EvAddTask (title : string) (now1 now2 : Z)
| EvMoveTask (taskId targetColumn : string)
| EvDeleteTask (taskId : string)
| EvUpdateTaskTitle (taskId newTitle : string)
| EvSettle (n : nat) (d : MockAPI.Draws).

Definition step (lc : LoadClock) (w : World) (e : Event) : World :=
  match e with
  | EvLogin u now => login u now w
  | EvLogout => logout lc w
  | EvAddTask t now1 now2 => addTask t now1 now2 w
  | EvMoveTask i c => moveTask i c w
  | EvDeleteTask i => deleteTask i w
  | EvUpdateTaskTitle i t => updateTaskTitle i t w
  | EvSettle n d => settle n d w
  end.

Definition run (lc : LoadClock) (es : list Event) : World :=
  fold_left (step lc) es (init lc).

Inductive reachable (lc : LoadClock) : World -> Prop :=
| reach_init : reachable lc (init lc)
| reach_step w e : reachable lc w -> reachable lc (step lc w e).

(** Draws under which the mock API succeeds, and under which it fails. *)
Definition succeeding (d : MockAPI.Draws) : Prop :=
  MockAPI.shouldFail (MockAPI.failDraw d) = false.
Definition failing (d : MockAPI.Draws) : Prop :=
  MockAPI.shouldFail (MockAPI.failDraw d) = true.

(** How many tasks of a collection carry a given id. *)
Definition countId (i : string) (ts : list Task) : nat :=
  List.length (filter (fun task => (id task =? i)%string) ts).

Definition ids (ts : list Task) : list string := map id ts.

(** Ascending order of [createdAt]. *)
Definition byCreatedAt (a b : Task) : Prop := createdAt a <= createdAt b.

(** Ascending order of [createdAt] without ties. *)
Definition strictlyByCreatedAt (a b : Task) : Prop := createdAt a < createdAt b.


(** What an update aimed at [taskId] may change: nothing about the length of
    the collection, nothing about the id found at each position, and nothing
    at all about a task whose id is not [taskId]. *)
Definition onlyTouches (taskId : string) (before after : list Task) : Prop :=
  List.length after = List.length before /\
  ids after = ids before /\
  forall n t, nth_error before n = Some t -> id t <> taskId ->
              nth_error after n = Some t.

(** ** The pages and the card's delete button *)
Module Pages.

(** What [App] renders: [user ? <BoardPage /> : <LandingPage />]. *)
Inductive Page : Type :=
| BoardPage
| LandingPage.

Definition App (w : World) : Page :=
  match user w with
  | Some _ => BoardPage
  | None => LandingPage
  end.

(** The two counters in the header of [BoardPage]. *)
Definition totalTasks (w : World) : nat := List.length (tasks w).

Definition completedTasks (w : World) : nat :=
  List.length (filter (fun t => (column t =? COLUMNS.DONE)%string) (tasks w)).

(** [LandingPage.handleLogin] together with the [error] state of the page:
    the result is the new value of [error] and the new world. *)
Definition handleLogin (username : string) (now : Z) (error : string)
           (w : World) : string * World :=
  if negb (JS.truthy (JS.trim username))
  then ("Please enter a username", w)
  else (error, login (JS.trim username) now w).

(** [TaskCard.handleDelete], with the card's task. *)
Definition handleDelete (task : Task) (w : World) : World :=
  deleteTask (id task) w.

End Pages.

(** A task is shown by a column of the board when it is in the list that
    [getTasksByColumn] gives for that column. *)
Definition shownIn (c : string) (w : World) (t : Task) : Prop :=
  In t (getTasksByColumn c w).

(** Every task is in one of the three columns of the board. *)
Definition columnsValid (ts : list Task) : Prop :=
  forall t, In t ts ->
            column t = COLUMNS.TODO \/ column t = COLUMNS.IN_PROGRESS \/
            column t = COLUMNS.DONE.

(** ** Concrete values used in the examples *)

(** A load of the module during which the clock reads 5000 three times. *)
Definition clock5000 : LoadClock := mkLoadClock 5000 5000 5000.

(** The store right after that load. *)
Definition board : World := init clock5000.

(** Draws with [Math.random()] = 0.5, under which the mock API succeeds, and
    with [Math.random()] = 0.1, under which it fails. *)
Definition drawOk : MockAPI.Draws := MockAPI.mkDraws (1 # 2) 1700000001500 "k3j9x0q2a".
Definition drawFail : MockAPI.Draws := MockAPI.mkDraws (1 # 10) 1700000001500 "k3j9x0q2a".

(** The collection of the ordered-restore example: three tasks created at
    10, 20 and 30. *)
Definition threeInOrder : World :=
  mkWorld [ mkTask "a" "A" COLUMNS.TODO 10;
            mkTask "b" "B" COLUMNS.IN_PROGRESS 20;
            mkTask "c" "C" COLUMNS.DONE 30 ]
          None [] [] [].

(** * Properties *)

(** ** Lookups *)

Lemma findTask_absent (taskId : string) (ts : list Task) :
  ~ In taskId (ids ts) -> findTask taskId ts = None.
Proof.
  induction ts as [|a ts IH]; simpl; intros Hnot; [reflexivity|].
  destruct (String.eqb_spec (id a) taskId) as [E|E].
  - exfalso. apply Hnot. now left.
  - apply IH. intros Hin. apply Hnot. now right.
Qed.

Lemma findTask_present (taskId : string) (ts : list Task) :
  In taskId (ids ts) ->
  exists t, findTask taskId ts = Some t /\ id t = taskId /\ In t ts.
Proof.
  induction ts as [|a ts IH]; simpl; intros Hin; [contradiction|].
  destruct (String.eqb_spec (id a) taskId) as [E|E].
  - exists a. auto.
  - destruct Hin as [Hin|Hin]; [contradiction|].
    destruct (IH Hin) as (t & Hf & Hid & Ht). exists t. auto.
Qed.

Lemma findTask_id (taskId : string) (ts : list Task) (t : Task) :
  findTask taskId ts = Some t -> id t = taskId /\ In t ts.
Proof.
  unfold findTask. intros H. split.
  - apply find_some in H. destruct H as [_ H].
    now apply String.eqb_eq in H.
  - apply find_some in H. tauto.
Qed.

Lemma with_column_undo (t : Task) (c : string) :
  with_column (with_column t c) (column t) = t.
Proof. now destruct t. Qed.

Lemma with_title_undo (t : Task) (s : string) :
  with_title (with_title t s) (title t) = t.
Proof. now destruct t. Qed.

Lemma findTask_setColumn (taskId c : string) (ts : list Task) :
  findTask taskId (setColumn taskId c ts)
  = option_map (fun t => with_column t c) (findTask taskId ts).
Proof.
  induction ts as [|a ts IH]; simpl; [reflexivity|].
  destruct (String.eqb_spec (id a) taskId) as [E|E]; simpl.
  - apply String.eqb_eq in E. now rewrite E.
  - apply String.eqb_neq in E. now rewrite E.
Qed.

Lemma findTask_setTitle (taskId s : string) (ts : list Task) :
  findTask taskId (setTitle taskId s ts)
  = option_map (fun t => with_title t s) (findTask taskId ts).
Proof.
  induction ts as [|a ts IH]; simpl; [reflexivity|].
  destruct (String.eqb_spec (id a) taskId) as [E|E]; simpl.
  - apply String.eqb_eq in E. now rewrite E.
  - apply String.eqb_neq in E. now rewrite E.
Qed.

(** ** Suspension and resumption *)

Lemma nth_error_last {A : Type} (l : list A) (k : A) :
  nth_error (l ++ [k]) (List.length l) = Some k.
Proof. induction l; simpl; auto. Qed.

Lemma removeNth_last {A : Type} (l : list A) (k : A) :
  removeNth (List.length l) (l ++ [k]) = l.
Proof. induction l; simpl; congruence. Qed.

(** Settling the action that was suspended last resumes it in the world as
    it was before the suspension, except for the log of requests. *)
Lemma settle_await (r : Request) (k : Continuation) (d : MockAPI.Draws)
      (w : World) :
  settle (List.length (inflight w)) d (await r k w)
  = resume k d (mkWorld (tasks w) (user w) (inflight w) (requests w ++ [r])
                        (toasts w)).
Proof.
  unfold settle, await; simpl.
  now rewrite nth_error_last, removeNth_last.
Qed.

Lemma settle_await_set (f : list Task -> list Task) (r : Request)
      (k : Continuation) (d : MockAPI.Draws) (w : World) :
  settle (List.length (inflight w)) d (await r k (set_tasks f w))
  = resume k d (mkWorld (f (tasks w)) (user w) (inflight w)
                        (requests w ++ [r]) (toasts w)).
Proof. exact (settle_await r k d (set_tasks f w)). Qed.

Lemma reachable_run (lc : LoadClock) (es : list Event) :
  reachable lc (run lc es).
Proof.
  unfold run. generalize (reach_init lc). generalize (init lc).
  induction es as [|e es IH]; simpl; intros w Hw; [exact Hw|].
  apply IH. now constructor.
Qed.

(** ** The frame of [map]-based updates *)

Lemma map_onlyTouches (taskId : string) (touch : Task -> Task)
      (ts : list Task) :
  (forall t, id (touch t) = id t) ->
  onlyTouches taskId ts
    (map (fun task => if (id task =? taskId)%string then touch task else task)
         ts).
Proof.
  intros touch_id. unfold onlyTouches, ids. repeat split.
  - apply length_map.
  - rewrite map_map. apply map_ext. intros a.
    destruct (id a =? taskId)%string; auto.
  - intros n t Hn Hne. rewrite nth_error_map, Hn. simpl.
    apply String.eqb_neq in Hne. now rewrite Hne.
Qed.

Lemma setColumn_onlyTouches (taskId c : string) (ts : list Task) :
  onlyTouches taskId ts (setColumn taskId c ts).
Proof.
  apply (map_onlyTouches taskId (fun t => with_column t c)). reflexivity.
Qed.

Lemma setTitle_onlyTouches (taskId s : string) (ts : list Task) :
  onlyTouches taskId ts (setTitle taskId s ts).
Proof.
  apply (map_onlyTouches taskId (fun t => with_title t s)). reflexivity.
Qed.

Lemma onlyTouches_refl (taskId : string) (ts : list Task) :
  onlyTouches taskId ts ts.
Proof. unfold onlyTouches. auto. Qed.


(** ** Actions on an id that is not in the collection *)

(** C7. When no task of the collection carries [taskId], each of
    [moveTask], [deleteTask] and [updateTaskTitle] returns at its guard: the
    world is the same afterwards, so the collection is unchanged, no request
    has been made, no toast has been shown and no continuation is left that
    could show one later.  The actions are total functions: there is no
    outcome in which one of them throws. *)
Theorem missing_id_is_silent_noop
        (w : World) (taskId targetColumn newTitle : string)
        (Hmissing : ~ In taskId (ids (tasks w))) :
  moveTask taskId targetColumn w = w /\
  deleteTask taskId w = w /\
  updateTaskTitle taskId newTitle w = w.
Proof.
  unfold moveTask, deleteTask, updateTaskTitle.
  rewrite (findTask_absent _ _ Hmissing). auto.
Qed.

Lemma missing_id_is_silent_noop_witness :
  ~ In "nonexistent" (ids (tasks board)) /\
  (moveTask "nonexistent" "done" board = board /\
   deleteTask "nonexistent" board = board /\
   updateTaskTitle "nonexistent" "New title" board = board).
Proof.
  assert (H : ~ In "nonexistent" (ids (tasks board))).
  { simpl. intros [H|[H|[H|[]]]]; discriminate H. }
  split; [exact H|].
  exact (missing_id_is_silent_noop _ "nonexistent" "done" "New title" H).
Defined.

(** ** Session *)

(** C8. Whatever the world, [logout] leaves no user and makes the collection
    the seeded list again: the three tasks with ids 1, 2 and 3 that the store
    starts from. *)
Theorem logout_resets_to_seed (lc : LoadClock) (w : World) :
  user (logout lc w) = None /\
  tasks (logout lc w) = initialTasks lc /\
  tasks (logout lc w) = tasks (init lc) /\
  List.length (tasks (logout lc w)) = 3%nat /\
  ids (tasks (logout lc w)) = ["1"; "2"; "3"].
Proof. repeat split. Qed.

(** ** Moving a task *)

(** C9. For a task that [taskId] resolves to and any string [s] at all,
    [moveTask] writes [s] into the task's column at once and calls the mock
    API with the old column and [s]; it looks neither at whether [s] is one of
    the three columns nor at whether [s] is the column the task is in.  After
    the call the task is found with column [s] and its other fields as they
    were, every task that carries [taskId] has column [s], and a move to the
    column the task is in makes its call to the mock API all the same.  The
    comparison of source and target column is made by [handleDrop], which
    calls [moveTask] only when the two differ. *)
Theorem moveTask_does_not_validate
        (w : World) (taskId s : string) (t : Task)
        (Hfind : findTask taskId (tasks w) = Some t) :
  tasks (moveTask taskId s w) = setColumn taskId s (tasks w) /\
  findTask taskId (tasks (moveTask taskId s w)) = Some (with_column t s) /\
  requests (moveTask taskId s w)
  = requests w ++ [ReqMoveTask taskId (column t) s] /\
  inflight (moveTask taskId s w)
  = inflight w ++ [AwaitMove taskId (column t) s] /\
  (forall sourceColumn,
      UI.handleDrop s taskId sourceColumn w
      = if (sourceColumn =? s)%string then w else moveTask taskId s w) /\
  findTask taskId (tasks (moveTask taskId s w))
  = Some (mkTask (id t) (title t) s (createdAt t)) /\
  (forall t', In t' (tasks (moveTask taskId s w)) -> id t' = taskId ->
              column t' = s) /\
  requests (moveTask taskId (column t) w)
  = requests w ++ [ReqMoveTask taskId (column t) (column t)].
Proof.
  unfold moveTask. rewrite Hfind. simpl.
  split; [reflexivity|]. split; [now rewrite findTask_setColumn, Hfind|].
  split; [reflexivity|]. split; [reflexivity|]. split; [|split; [|split]].
  - intros sourceColumn. unfold UI.handleDrop, moveTask. rewrite Hfind.
    now destruct (sourceColumn =? s)%string.
  - now rewrite findTask_setColumn, Hfind.
  - intros t' Hin Hid. unfold setColumn in Hin. apply in_map_iff in Hin.
    destruct Hin as (a & Ha & _). subst t'.
    destruct (String.eqb_spec (id a) taskId) as [E|E]; [reflexivity|].
    contradiction.
  - reflexivity.
Qed.

Lemma moveTask_does_not_validate_witness :
  let w := board in
  let t := mkTask "3" "Setup project repository" "done" 3000 in
  findTask "3" (tasks w) = Some t /\
  (tasks (moveTask "3" "archive" w) = setColumn "3" "archive" (tasks w) /\
   findTask "3" (tasks (moveTask "3" "archive" w))
   = Some (with_column t "archive") /\
   requests (moveTask "3" "archive" w)
   = requests w ++ [ReqMoveTask "3" (column t) "archive"] /\
   inflight (moveTask "3" "archive" w)
   = inflight w ++ [AwaitMove "3" (column t) "archive"] /\
   (forall sourceColumn,
       UI.handleDrop "archive" "3" sourceColumn w
       = if (sourceColumn =? "archive")%string then w
         else moveTask "3" "archive" w) /\
   findTask "3" (tasks (moveTask "3" "archive" w))
   = Some (mkTask "3" "Setup project repository" "archive" 3000) /\
   (forall t', In t' (tasks (moveTask "3" "archive" w)) -> id t' = "3" ->
               column t' = "archive") /\
   requests (moveTask "3" "done" w)
   = requests w ++ [ReqMoveTask "3" "done" "done"]).
Proof.
  split; [reflexivity|].
  apply (moveTask_does_not_validate board "3" "archive"
           (mkTask "3" "Setup project repository" "done" 3000)).
  reflexivity.
Defined.

(** C5. For a task [t] that [taskId] resolves to, [moveTask] keeps [t]'s
    column in the suspended action, and the task is found with the target
    column straight away.  When the mock API then fails, the task is found
    exactly as it was before the call, column included; in whatever world
    the failure arrives, every task that carries [taskId] gets the kept
    column.  When the mock API succeeds, the collection stays as the
    optimistic step left it. *)
Theorem moveTask_rollback_restores_column
        (w : World) (taskId targetColumn : string) (t : Task)
        (d : MockAPI.Draws)
        (Hfind : findTask taskId (tasks w) = Some t) :
  let w1 := moveTask taskId targetColumn w in
  let k := AwaitMove taskId (column t) targetColumn in
  let w2 := settle (List.length (inflight w)) d w1 in
  inflight w1 = inflight w ++ [k] /\
  findTask taskId (tasks w1) = Some (with_column t targetColumn) /\
  (failing d ->
   findTask taskId (tasks w2) = Some t /\
   toasts w2 = toasts w ++ [ToastError "Failed to move task. Please try again."] /\
   forall w' t', In t' (tasks (resume k d w')) -> id t' = taskId ->
                 column t' = column t) /\
  (succeeding d ->
   tasks w2 = tasks w1 /\
   toasts w2 = toasts w ++ [ToastSuccess "Task moved successfully!"]).
Proof.
  intros w1 k w2. subst w1 k w2. unfold moveTask. rewrite Hfind.
  rewrite settle_await_set. simpl. unfold MockAPI.moveTask.
  repeat split.
  - now rewrite findTask_setColumn, Hfind.
  - rewrite H. simpl. rewrite !findTask_setColumn, Hfind. simpl.
    now rewrite with_column_undo.
  - now rewrite H.
  - intros w' t'. rewrite H. simpl. unfold setColumn. rewrite in_map_iff.
    intros (a & Ha & _) Hid. subst t'.
    destruct (String.eqb_spec (id a) taskId) as [E|E]; [reflexivity|].
    simpl in Hid. contradiction.
  - now rewrite H.
  - now rewrite H.
Qed.

Lemma moveTask_rollback_restores_column_witness :
  let t := mkTask "1" "Design landing page mockup" "todo" 5000 in
  findTask "1" (tasks board) = Some t /\
  failing drawFail /\
  findTask "1" (tasks (moveTask "1" "done" board))
  = Some (with_column t "done") /\
  findTask "1" (tasks (settle 0 drawFail (moveTask "1" "done" board)))
  = Some t.
Proof.
  pose proof (moveTask_rollback_restores_column
                board "1" "done"
                (mkTask "1" "Design landing page mockup" "todo" 5000)
                drawFail eq_refl) as (_ & Happly & Hfail & _).
  split; [reflexivity|]. split; [reflexivity|]. split; [exact Happly|].
  exact (proj1 (Hfail eq_refl)).
Defined.

(** ** The frame of moving and renaming *)

(** C10. Both the optimistic step of [moveTask] and of [updateTaskTitle], and
    whatever their continuations do when the mock API settles (nothing on
    success, the rollback on failure, in whatever world the settlement
    arrives), keep the length of the collection, keep the id found at every
    position, and keep every task whose id is not the targeted one as it is
    and where it is. *)
Theorem move_and_rename_touch_only_their_target
        (w : World) (taskId v original : string) (d : MockAPI.Draws) :
  onlyTouches taskId (tasks w) (tasks (moveTask taskId v w)) /\
  onlyTouches taskId (tasks w) (tasks (updateTaskTitle taskId v w)) /\
  onlyTouches taskId (tasks w)
              (tasks (resume (AwaitMove taskId original v) d w)) /\
  onlyTouches taskId (tasks w)
              (tasks (resume (AwaitUpdate taskId original v) d w)).
Proof.
  split; [|split; [|split]].
  - unfold moveTask. destruct (findTask taskId (tasks w)); simpl.
    + apply setColumn_onlyTouches.
    + apply onlyTouches_refl.
  - unfold updateTaskTitle. destruct (findTask taskId (tasks w)); simpl.
    + apply setTitle_onlyTouches.
    + apply onlyTouches_refl.
  - simpl. unfold MockAPI.moveTask.
    destruct (MockAPI.shouldFail (MockAPI.failDraw d)); simpl.
    + apply setColumn_onlyTouches.
    + apply onlyTouches_refl.
  - simpl. unfold MockAPI.updateTask.
    destruct (MockAPI.shouldFail (MockAPI.failDraw d)); simpl.
    + apply setTitle_onlyTouches.
    + apply onlyTouches_refl.
Qed.

(** ** Sorting by [createdAt] *)

Lemma insertByCreatedAt_perm (a : Task) (l : list Task) :
  Permutation (insertByCreatedAt a l) (a :: l).
Proof.
  induction l as [|b l IH]; simpl; [reflexivity|].
  destruct (compareCreatedAt a b <=? 0); [reflexivity|].
  rewrite IH. apply perm_swap.
Qed.

Lemma sortByCreatedAt_perm (l : list Task) :
  Permutation (sortByCreatedAt l) l.
Proof.
  induction l as [|a l IH]; simpl; [reflexivity|].
  rewrite insertByCreatedAt_perm. now constructor.
Qed.

Lemma insertByCreatedAt_sorted (a : Task) (l : list Task) :
  StronglySorted byCreatedAt l ->
  StronglySorted byCreatedAt (insertByCreatedAt a l).
Proof.
  induction 1 as [|b l Hs IH Hall]; simpl.
  - repeat constructor.
  - unfold compareCreatedAt.
    destruct (Z.leb_spec (createdAt a - createdAt b) 0) as [Hle|Hgt].
    + constructor; [now constructor|].
      constructor; [unfold byCreatedAt; lia|].
      eapply Forall_impl; [|exact Hall].
      unfold byCreatedAt. intros c Hc. lia.
    + constructor; [exact IH|].
      eapply Permutation_Forall.
      * symmetry. apply insertByCreatedAt_perm.
      * constructor; [unfold byCreatedAt; lia | exact Hall].
Qed.

Lemma sortByCreatedAt_sorted (l : list Task) :
  StronglySorted byCreatedAt (sortByCreatedAt l).
Proof.
  induction l as [|a l IH]; simpl; [constructor|].
  now apply insertByCreatedAt_sorted.
Qed.

(** A collection has at most one arrangement in ascending order when no two
    of its tasks share their [createdAt]. *)
Lemma ascending_arrangement_unique (l1 : list Task) :
  forall l2,
    StronglySorted byCreatedAt l1 ->
    StronglySorted strictlyByCreatedAt l2 ->
    Permutation l1 l2 -> l1 = l2.
Proof.
  induction l1 as [|a l1 IH]; intros l2 H1 H2 Hp.
  - now apply Permutation_nil in Hp.
  - destruct l2 as [|b l2].
    + symmetry in Hp. now apply Permutation_nil in Hp.
    + inversion H1 as [|? ? Hs1 Ha]; subst.
      inversion H2 as [|? ? Hs2 Hb]; subst.
      assert (Hab : a = b).
      { assert (Hina : In a (b :: l2))
          by (eapply Permutation_in; [exact Hp | now left]).
        assert (Hinb : In b (a :: l1))
          by (eapply Permutation_in; [symmetry; exact Hp | now left]).
        destruct Hina as [E|Hina]; [now symmetry|].
        destruct Hinb as [E|Hinb]; [exact E|].
        rewrite Forall_forall in Ha, Hb.
        specialize (Ha _ Hinb). specialize (Hb _ Hina).
        unfold byCreatedAt in Ha. unfold strictlyByCreatedAt in Hb. lia. }
      subst b. f_equal. apply IH; auto.
      eapply Permutation_cons_inv. exact Hp.
Qed.

Lemma dropId_absent (taskId : string) (ts : list Task) :
  countId taskId ts = 0%nat -> dropId taskId ts = ts.
Proof.
  unfold countId, dropId. induction ts as [|a ts IH]; simpl; [reflexivity|].
  destruct (id a =? taskId)%string; simpl; [discriminate|].
  intros H. f_equal. now apply IH.
Qed.

(** Taking out the one task that carries [taskId] and putting the task that
    was found back gives the same collection up to order. *)
Lemma dropId_found_perm (taskId : string) (ts : list Task) (t : Task) :
  findTask taskId ts = Some t -> countId taskId ts = 1%nat ->
  Permutation (dropId taskId ts ++ [t]) ts.
Proof.
  intros Hf Hc. rewrite Permutation_app_comm. simpl.
  revert Hf Hc. unfold findTask, countId, dropId.
  induction ts as [|a ts IH]; simpl; [discriminate|].
  destruct (id a =? taskId)%string; simpl.
  - intros Hf Hc. injection Hf as <-. injection Hc as Hc.
    apply (dropId_absent taskId) in Hc. unfold dropId in Hc.
    now rewrite Hc.
  - intros Hf Hc. rewrite perm_swap. constructor. now apply IH.
Qed.

(** ** Deleting a task *)

(** X18.  For a task [t] that [taskId] resolves to, [deleteTask] takes the
    tasks carrying [taskId] out and keeps the whole of [t] in the suspended
    action.  When the mock API fails, [t] itself (id, title, column and
    createdAt as they were) is put back and the whole collection is sorted
    by [createdAt]: in whatever world the failure arrives, the result holds
    [t], holds exactly the tasks of that world and [t], and is in ascending
    order of [createdAt].  In particular, when the collection was in
    ascending order without ties and [t] was its only task with that id, the
    collection after the rollback is the collection before the call, so [t]
    is back at its place and not at the end.  When the mock API succeeds,
    the collection stays as the optimistic step left it. *)
Theorem deleteTask_rollback_reinserts_by_createdAt
        (w : World) (taskId : string) (t : Task) (d : MockAPI.Draws)
        (Hfind : findTask taskId (tasks w) = Some t) :
  let w1 := deleteTask taskId w in
  let k := AwaitDelete taskId t in
  let w2 := settle (List.length (inflight w)) d w1 in
  tasks w1 = dropId taskId (tasks w) /\
  inflight w1 = inflight w ++ [k] /\
  (failing d ->
   (forall w', In t (tasks (resume k d w')) /\
               Permutation (tasks (resume k d w')) (tasks w' ++ [t]) /\
               StronglySorted byCreatedAt (tasks (resume k d w'))) /\
   tasks w2 = sortByCreatedAt (dropId taskId (tasks w) ++ [t]) /\
   toasts w2
   = toasts w ++ [ToastError "Failed to delete task. Please try again."] /\
   (StronglySorted strictlyByCreatedAt (tasks w) ->
    countId taskId (tasks w) = 1%nat ->
    tasks w2 = tasks w)) /\
  (succeeding d ->
   tasks w2 = tasks w1 /\
   toasts w2 = toasts w ++ [ToastSuccess "Task deleted successfully!"]).
Proof.
  intros w1 k w2. subst w1 k w2. unfold deleteTask. rewrite Hfind.
  rewrite settle_await_set. simpl. unfold MockAPI.deleteTask.
  split; [reflexivity|]. split; [reflexivity|]. split.
  - intros Hd. rewrite Hd. simpl. unfold reinsert.
    split; [|split; [reflexivity|split; [reflexivity|]]].
    + intros w'. split; [|split].
      * eapply Permutation_in.
        -- symmetry. apply sortByCreatedAt_perm.
        -- apply in_or_app. right. now left.
      * apply sortByCreatedAt_perm.
      * apply sortByCreatedAt_sorted.
    + intros Hsorted Hone.
      apply ascending_arrangement_unique.
      * apply sortByCreatedAt_sorted.
      * exact Hsorted.
      * rewrite sortByCreatedAt_perm. now apply dropId_found_perm.
  - intros Hd. rewrite Hd. simpl. auto.
Qed.

Lemma deleteTask_rollback_reinserts_by_createdAt_witness :
  let t := mkTask "b" "B" "inProgress" 20 in
  findTask "b" (tasks threeInOrder) = Some t /\
  failing drawFail /\
  StronglySorted strictlyByCreatedAt (tasks threeInOrder) /\
  countId "b" (tasks threeInOrder) = 1%nat /\
  map createdAt (tasks (deleteTask "b" threeInOrder)) = [10; 30] /\
  tasks (settle 0 drawFail (deleteTask "b" threeInOrder))
  = tasks threeInOrder.
Proof.
  assert (Hs : StronglySorted strictlyByCreatedAt (tasks threeInOrder)).
  { unfold strictlyByCreatedAt. repeat constructor; simpl; lia. }
  pose proof (deleteTask_rollback_reinserts_by_createdAt
                threeInOrder "b" (mkTask "b" "B" "inProgress" 20)
                drawFail eq_refl) as (_ & _ & Hfail & _).
  destruct (Hfail eq_refl) as (_ & _ & _ & Hback).
  split; [reflexivity|]. split; [reflexivity|]. split; [exact Hs|].
  split; [reflexivity|]. split; [reflexivity|].
  exact (Hback Hs eq_refl).
Defined.

(** On the seeded board, whose tasks are listed from the newest to the
    oldest, a failed deletion turns the whole collection around. *)
Lemma seeded_board_is_reordered_by_rollback :
  ids (tasks board) = ["1"; "2"; "3"] /\
  ids (tasks (settle 0 drawFail (deleteTask "2" board))) = ["3"; "2"; "1"].
Proof. split; reflexivity. Qed.

(** C4 does not hold of the code on the board the store starts from and
    returns to at every logout.  The seeded tasks are listed from the newest
    to the oldest, so the sort of the rollback does not bring a task back to
    where it was: whenever the three clock readings of the load are less
    than a second apart, a failed deletion of the first task of the board
    puts it at the end and turns the whole board around. *)
Theorem failed_deletion_reverses_the_seeded_board
        (lc : LoadClock) (d : MockAPI.Draws)
        (Hfail : failing d)
        (H12 : loadNow2 lc - 1000 < loadNow1 lc)
        (H23 : loadNow3 lc - 2000 < loadNow2 lc - 1000) :
  let t1 := mkTask "1" "Design landing page mockup" "todo" (loadNow1 lc) in
  let t2 := mkTask "2" "Implement authentication flow" "inProgress"
                   (loadNow2 lc - 1000) in
  let t3 := mkTask "3" "Setup project repository" "done"
                   (loadNow3 lc - 2000) in
  let w := settle 0 d (deleteTask "1" (init lc)) in
  tasks (init lc) = [t1; t2; t3] /\
  tasks (logout lc w) = [t1; t2; t3] /\
  findTask "1" (tasks (init lc)) = Some t1 /\
  tasks (deleteTask "1" (init lc)) = [t2; t3] /\
  tasks w = [t3; t2; t1] /\
  nth_error (tasks (init lc)) 0 = Some t1 /\
  nth_error (tasks w) 0 = Some t3 /\
  nth_error (tasks w) 2 = Some t1 /\
  tasks w <> tasks (init lc).
Proof.
  intros t1 t2 t3 w.
  assert (Hw : tasks w = [t3; t2; t1]).
  { subst w. unfold settle, deleteTask. cbn [init initialTasks tasks findTask find id].
    cbn. unfold MockAPI.deleteTask. unfold failing in Hfail. rewrite Hfail.
    cbn. unfold compareCreatedAt. cbn [createdAt].
    destruct (Z.leb_spec (loadNow3 lc - 2000 - loadNow1 lc) 0); [|lia].
    cbn. unfold compareCreatedAt. cbn [createdAt].
    destruct (Z.leb_spec (loadNow2 lc - 1000 - (loadNow3 lc - 2000)) 0); [lia|].
    destruct (Z.leb_spec (loadNow2 lc - 1000 - loadNow1 lc) 0); [|lia].
    reflexivity. }
  split; [reflexivity|]. split; [reflexivity|]. split; [reflexivity|].
  split; [reflexivity|]. split; [exact Hw|]. split; [reflexivity|].
  rewrite Hw. split; [reflexivity|]. split; [reflexivity|].
  intros H. discriminate H.
Qed.

Lemma failed_deletion_reverses_the_seeded_board_witness :
  failing drawFail /\
  loadNow2 clock5000 - 1000 < loadNow1 clock5000 /\
  loadNow3 clock5000 - 2000 < loadNow2 clock5000 - 1000 /\
  ids (tasks board) = ["1"; "2"; "3"] /\
  ids (tasks (settle 0 drawFail (deleteTask "1" board))) = ["3"; "2"; "1"].
Proof.
  assert (H12 : loadNow2 clock5000 - 1000 < loadNow1 clock5000)
    by (simpl; lia).
  assert (H23 : loadNow3 clock5000 - 2000 < loadNow2 clock5000 - 1000)
    by (simpl; lia).
  pose proof (failed_deletion_reverses_the_seeded_board
                clock5000 drawFail eq_refl H12 H23)
    as (_ & _ & _ & _ & Hw & _).
  split; [reflexivity|]. split; [exact H12|]. split; [exact H23|].
  split; [reflexivity|]. exact (f_equal ids Hw).
Defined.

(** ** Adding a task *)

Lemma numberToString_head (n : Z) :
  exists c rest, JS.numberToString n = String c rest /\ c <> "t"%char.
Proof.
  unfold JS.numberToString, NilZero.string_of_int.
  destruct (Z.to_int n) as [u|u].
  - destruct u; simpl; eexists; eexists; (split; [reflexivity|discriminate]).
  - eexists; eexists; (split; [reflexivity|discriminate]).
Qed.

(** The id minted by the mock API never is the temporary id of the store:
    the first begins with a digit or a minus sign, the second with a t. *)
Lemma mintId_not_temp (d : MockAPI.Draws) (now1 : Z) :
  MockAPI.mintId d <> mintTempId now1.
Proof.
  unfold MockAPI.mintId, mintTempId.
  destruct (numberToString_head (MockAPI.serverNow d)) as (c & rest & E & Hc).
  rewrite E. simpl. intros H. injection H as Hc' _. contradiction.
Qed.

Lemma nth_error_replaceTemp (tempId : string) (srv : Task) (ts : list Task)
      (n : nat) :
  nth_error (replaceTemp tempId srv ts) n
  = option_map (fun task => if (id task =? tempId)%string
                            then with_column srv COLUMNS.TODO else task)
               (nth_error ts n).
Proof. unfold replaceTemp. apply nth_error_map. Qed.

Lemma countId_replaceTemp_temp (tempId : string) (srv : Task) (ts : list Task) :
  id srv <> tempId -> countId tempId (replaceTemp tempId srv ts) = 0%nat.
Proof.
  intros Hne. unfold countId, replaceTemp.
  induction ts as [|a ts IH]; simpl; [reflexivity|].
  destruct (String.eqb_spec (id a) tempId) as [E|E]; simpl.
  - apply String.eqb_neq in Hne. now rewrite Hne.
  - apply String.eqb_neq in E. now rewrite E.
Qed.

Lemma countId_replaceTemp_server (tempId : string) (srv : Task) (ts : list Task) :
  id srv <> tempId ->
  countId (id srv) (replaceTemp tempId srv ts)
  = (countId tempId ts + countId (id srv) ts)%nat.
Proof.
  intros Hne. unfold countId, replaceTemp.
  induction ts as [|a ts IH]; simpl; [reflexivity|].
  destruct (String.eqb_spec (id a) tempId) as [E|E]; simpl.
  - rewrite String.eqb_refl. simpl.
    assert (Ha : (id a =? id srv)%string = false).
    { apply String.eqb_neq. congruence. }
    rewrite Ha. now rewrite IH.
  - destruct (id a =? id srv)%string; simpl; rewrite IH; lia.
Qed.

(** One position holds the task with a given id when no other does. *)
Lemma only_at (i : string) (ts : list Task) (n m : nat) (p q : Task) :
  countId i ts = 1%nat ->
  nth_error ts n = Some p -> id p = i ->
  nth_error ts m = Some q -> id q = i -> m = n.
Proof.
  unfold countId. revert n m.
  induction ts as [|a ts IH]; intros n m Hc Hn Hp Hm Hq.
  - now destruct n.
  - simpl in Hc. destruct (String.eqb_spec (id a) i) as [E|E].
    + simpl in Hc. injection Hc as Hc.
      assert (Hnone : forall j x, nth_error ts j = Some x -> id x <> i).
      { intros j x Hj Hx. apply nth_error_In in Hj.
        assert (Hin : In x (filter (fun task => (id task =? i)%string) ts)).
        { apply filter_In. split; [exact Hj|]. now apply String.eqb_eq. }
        destruct (filter (fun task => (id task =? i)%string) ts);
          [contradiction|discriminate]. }
      destruct n as [|n], m as [|m]; auto; simpl in *.
      * exfalso. exact (Hnone _ _ Hm Hq).
      * exfalso. exact (Hnone _ _ Hn Hp).
      * exfalso. exact (Hnone _ _ Hn Hp).
    + destruct n as [|n], m as [|m]; simpl in *.
      * reflexivity.
      * injection Hn as <-. contradiction.
      * injection Hm as <-. contradiction.
      * f_equal. eapply IH; eauto.
Qed.

Lemma replaceTemp_absent (tempId : string) (srv : Task) (ts : list Task) :
  countId tempId ts = 0%nat -> replaceTemp tempId srv ts = ts.
Proof.
  unfold countId, replaceTemp. induction ts as [|a ts IH]; simpl; [reflexivity|].
  destruct (id a =? tempId)%string; simpl; [discriminate|].
  intros H. f_equal. now apply IH.
Qed.

(** C3, as the claim states it, fails on the code: the addition below
    succeeds, yet after it no task of the collection carries the minted id or
    the temporary one, because the user has logged out while the call was
    awaited and the success branch has found no task to replace. *)
Lemma successful_add_after_logout_leaves_no_item :
  let w := run clock5000
               [EvAddTask "Write spec" 1700000000000 1700000000000;
                EvLogout;
                EvSettle 0 drawOk] in
  succeeding drawOk /\
  requests w
  = [ReqAddTask
       (mkTask "temp-1700000000000" "Write spec" "todo" 1700000000000)] /\
  toasts w = [ToastSuccess "Task added successfully!"] /\
  MockAPI.mintId drawOk = "1700000001500k3j9x0q2a" /\
  countId "temp-1700000000000" (tasks w) = 0%nat /\
  countId "1700000001500k3j9x0q2a" (tasks w) = 0%nat /\
  ids (tasks w) = ["1"; "2"; "3"].
Proof. repeat split. Qed.

(** C3, amended.  [addTask] appends the optimistic task and suspends.  When
    the mock API succeeds and the collection, as it is at that moment, holds
    the optimistic task's id at position [n] and nowhere else, and does not
    hold the id the mock API has minted, then the success branch puts the
    server's task at position [n] and leaves every other position as it is:
    the length is the same, the new id is the minted one and differs from
    the temporary one, the column is the one that [addTask] gave the task
    when it appended it, no task carries the temporary id any more and
    exactly one carries the minted id.  When no task carries the temporary
    id at that moment, the success branch leaves the collection as it is.
    When nothing happens between the call and the success, and the
    temporary id was not in use, the collection is the one before the call
    followed by the server's task. *)
Theorem addTask_success_replaces_in_place
        (w : World) (title : string) (now1 now2 : Z) (d : MockAPI.Draws)
        (w' : World) (n : nat) (p : Task)
        (Hok : succeeding d)
        (Hat : nth_error (tasks w') n = Some p)
        (Hid : id p = mintTempId now1)
        (Honly : countId (mintTempId now1) (tasks w') = 1%nat)
        (Hfresh : countId (MockAPI.mintId d) (tasks w') = 0%nat) :
  let tempId := mintTempId now1 in
  let optimisticTask := mkTask tempId title COLUMNS.TODO now2 in
  let canonical := mkTask (MockAPI.mintId d) title COLUMNS.TODO now2 in
  let k := AwaitAdd tempId optimisticTask in
  let after := tasks (resume k d w') in
  tasks (addTask title now1 now2 w) = tasks w ++ [optimisticTask] /\
  inflight (addTask title now1 now2 w) = inflight w ++ [k] /\
  nth_error after n = Some canonical /\
  (forall m, m <> n -> nth_error after m = nth_error (tasks w') m) /\
  List.length after = List.length (tasks w') /\
  id canonical <> tempId /\
  (forall appended replaced,
      nth_error (tasks (addTask title now1 now2 w)) (List.length (tasks w))
      = Some appended ->
      nth_error after n = Some replaced ->
      column replaced = column appended /\
      replaced = mkTask (MockAPI.mintId d) title (column appended)
                        (createdAt appended)) /\
  countId tempId after = 0%nat /\
  countId (id canonical) after = 1%nat /\
  (forall gone,
      countId tempId (tasks gone) = 0%nat ->
      tasks (resume k d gone) = tasks gone) /\
  (countId tempId (tasks w) = 0%nat ->
   tasks (settle (List.length (inflight w)) d (addTask title now1 now2 w))
   = tasks w ++ [canonical]).
Proof.
  intros tempId optimisticTask canonical k after.
  fold tempId in Hid, Honly.
  assert (Hne : MockAPI.mintId d <> tempId) by apply mintId_not_temp.
  assert (Hresume : forall x,
             tasks (resume k d x)
             = replaceTemp tempId (with_id optimisticTask (MockAPI.mintId d))
                           (tasks x)).
  { intros x. subst k. simpl. unfold MockAPI.addTask.
    unfold succeeding in Hok. now rewrite Hok. }
  assert (Hafter : after = replaceTemp tempId
                             (with_id optimisticTask (MockAPI.mintId d))
                             (tasks w')) by apply Hresume.
  assert (Hn : nth_error after n = Some canonical).
  { rewrite Hafter, nth_error_replaceTemp, Hat. simpl.
    apply String.eqb_eq in Hid. now rewrite Hid. }
  split; [reflexivity|]. split; [reflexivity|]. split; [exact Hn|].
  split; [|split; [|split; [|split; [|split; [|split; [|split]]]]]].
  - intros m Hm. rewrite Hafter, nth_error_replaceTemp.
    destruct (nth_error (tasks w') m) as [q|] eqn:Eq; simpl; [|reflexivity].
    destruct (String.eqb_spec (id q) tempId) as [E|E]; [|reflexivity].
    exfalso. apply Hm. exact (only_at tempId _ n m p q Honly Hat Hid Eq E).
  - rewrite Hafter. unfold replaceTemp. apply length_map.
  - exact Hne.
  - intros appended replaced Happ Hrep.
    rewrite Hn in Hrep. injection Hrep as <-.
    change (tasks (addTask title now1 now2 w))
      with (tasks w ++ [optimisticTask]) in Happ.
    rewrite nth_error_last in Happ. injection Happ as <-.
    repeat split.
  - rewrite Hafter. now apply countId_replaceTemp_temp.
  - rewrite Hafter.
    change (id canonical) with (id (with_id optimisticTask (MockAPI.mintId d))).
    rewrite countId_replaceTemp_server by exact Hne.
    simpl. fold tempId. rewrite Honly, Hfresh. reflexivity.
  - intros gone Hgone. rewrite Hresume. now apply replaceTemp_absent.
  - intros Hunused. unfold addTask. fold tempId optimisticTask.
    rewrite settle_await_set. simpl. unfold MockAPI.addTask.
    unfold succeeding in Hok. rewrite Hok. simpl.
    unfold replaceTemp. rewrite map_app. simpl.
    rewrite String.eqb_refl. f_equal.
    now apply (replaceTemp_absent tempId).
Qed.

Lemma addTask_success_replaces_in_place_witness :
  let created := addTask "Write spec" 1700000000000 1700000000000 board in
  let canonical :=
    mkTask "1700000001500k3j9x0q2a" "Write spec" "todo" 1700000000000 in
  succeeding drawOk /\
  nth_error (tasks created) 3
  = Some (mkTask "temp-1700000000000" "Write spec" "todo" 1700000000000) /\
  countId "temp-1700000000000" (tasks created) = 1%nat /\
  countId "1700000001500k3j9x0q2a" (tasks created) = 0%nat /\
  nth_error (tasks (settle 0 drawOk created)) 3 = Some canonical /\
  countId "temp-1700000000000" (tasks (settle 0 drawOk created)) = 0%nat /\
  countId "1700000001500k3j9x0q2a" (tasks (settle 0 drawOk created)) = 1%nat /\
  tasks (settle 0 drawOk created) = tasks board ++ [canonical].
Proof.
  pose proof (addTask_success_replaces_in_place
                board "Write spec" 1700000000000 1700000000000 drawOk
                (addTask "Write spec" 1700000000000 1700000000000 board) 3
                (mkTask "temp-1700000000000" "Write spec" "todo" 1700000000000)
                eq_refl eq_refl eq_refl eq_refl eq_refl)
    as (_ & _ & Hn & _ & _ & _ & _ & Htemp & Hsrv & _ & Hdirect).
  split; [reflexivity|]. split; [reflexivity|]. split; [reflexivity|].
  split; [reflexivity|]. split; [exact Hn|]. split; [exact Htemp|].
  split; [exact Hsrv|]. exact (Hdirect eq_refl).
Defined.

(** ** Validation of titles *)

(** C2, as the claim states it, fails on the store: [addTask] with a title
    of three spaces appends a task, calls the mock API and, once that has
    succeeded, shows a toast. *)
Lemma addTask_applies_blank_title :
  JS.trim "   " = "" /\
  tasks (addTask "   " 1700000000000 1700000000000 board) <> tasks board /\
  requests (addTask "   " 1700000000000 1700000000000 board)
  = [ReqAddTask (mkTask "temp-1700000000000" "   " "todo" 1700000000000)] /\
  toasts (settle 0 drawOk (addTask "   " 1700000000000 1700000000000 board))
  = [ToastSuccess "Task added successfully!"].
Proof.
  split; [reflexivity|]. split; [|split; reflexivity].
  intros H. apply (f_equal (@List.length Task)) in H. discriminate H.
Qed.

(** C2, amended.  The check for a blank title is made by the form: when the
    text of the input field trims to the empty string, [handleSubmit]
    returns without calling the store, so the collection is unchanged, no
    request is made and no toast is shown or pending; otherwise it calls
    [addTask] with the trimmed text.  [addTask] itself appends a task for
    whatever title it is given. *)
Theorem handleSubmit_rejects_blank_title
        (taskTitle : string) (now1 now2 : Z) (w : World)
        (Hblank : JS.trim taskTitle = "") :
  UI.handleSubmit taskTitle now1 now2 w = w /\
  (forall other,
      JS.trim other <> "" ->
      UI.handleSubmit other now1 now2 w = addTask (JS.trim other) now1 now2 w) /\
  (forall title,
      tasks (addTask title now1 now2 w)
      = tasks w ++ [mkTask (mintTempId now1) title COLUMNS.TODO now2]).
Proof.
  unfold UI.handleSubmit, JS.truthy. rewrite Hblank. simpl.
  split; [reflexivity|]. split; [|reflexivity].
  intros other Hother. apply String.eqb_neq in Hother. now rewrite Hother.
Qed.

Lemma handleSubmit_rejects_blank_title_witness :
  JS.trim "   " = "" /\
  UI.handleSubmit "   " 1700000000000 1700000000000 board = board.
Proof.
  split; [reflexivity|].
  exact (proj1 (handleSubmit_rejects_blank_title
                  "   " 1700000000000 1700000000000 board eq_refl)).
Defined.

(** C6, as the claim states it, fails on the store: for the seeded task 2,
    [updateTaskTitle] with the current title followed by a space, which trims
    to the current title, changes the collection, calls the mock API and,
    once that has succeeded, shows a toast; with the current title itself it
    still calls the mock API and shows the toast. *)
Lemma updateTaskTitle_applies_same_title :
  let current := "Implement authentication flow" in
  let padded := "Implement authentication flow " in
  findTask "2" (tasks board) = Some (mkTask "2" current "inProgress" 4000) /\
  JS.trim padded = current /\
  tasks (updateTaskTitle "2" padded board) <> tasks board /\
  requests (updateTaskTitle "2" padded board) = [ReqUpdateTask "2" padded] /\
  toasts (settle 0 drawOk (updateTaskTitle "2" padded board))
  = [ToastSuccess "Task updated successfully!"] /\
  JS.trim current = current /\
  requests (updateTaskTitle "2" current board) = [ReqUpdateTask "2" current] /\
  toasts (settle 0 drawOk (updateTaskTitle "2" current board))
  = [ToastSuccess "Task updated successfully!"].
Proof.
  cbv zeta. split; [reflexivity|]. split; [reflexivity|].
  split; [|repeat split].
  intros H. apply (f_equal (fun ts => map title ts)) in H.
  vm_compute in H. discriminate H.
Qed.

(** C6, amended.  The check for an unchanged title is made by the card, on
    the text of the edit field as it is: when that text is the title of the
    card's task, [handleSave] returns without calling the store, so the
    collection is unchanged, no request is made and no toast is shown or
    pending.  [updateTaskTitle] itself, for a task that [taskId] resolves
    to, writes whatever title it is given and calls the mock API. *)
Theorem handleSave_skips_unchanged_title (task : Task) (w : World) :
  UI.handleSave task (title task) w = w /\
  (forall taskId newTitle t,
      findTask taskId (tasks w) = Some t ->
      tasks (updateTaskTitle taskId newTitle w)
      = setTitle taskId newTitle (tasks w) /\
      requests (updateTaskTitle taskId newTitle w)
      = requests w ++ [ReqUpdateTask taskId newTitle]).
Proof.
  split.
  - unfold UI.handleSave. rewrite String.eqb_refl.
    now rewrite andb_false_r.
  - intros taskId newTitle t Hfind. unfold updateTaskTitle.
    rewrite Hfind. split; reflexivity.
Qed.

Lemma handleSave_skips_unchanged_title_witness :
  let task := mkTask "2" "Implement authentication flow" "inProgress" 4000 in
  findTask "2" (tasks board) = Some task /\
  UI.handleSave task "Implement authentication flow" board = board /\
  requests (updateTaskTitle "2" "Implement authentication flow" board)
  = requests board ++ [ReqUpdateTask "2" "Implement authentication flow"].
Proof.
  pose proof (handleSave_skips_unchanged_title
                (mkTask "2" "Implement authentication flow" "inProgress" 4000)
                board) as (Hsave & Hstore).
  split; [reflexivity|]. split; [exact Hsave|].
  exact (proj2 (Hstore "2" "Implement authentication flow" _ eq_refl)).
Defined.

(** ** Uniqueness of ids *)

Lemma run_snoc (lc : LoadClock) (es : list Event) (e : Event) :
  run lc (es ++ [e]) = step lc (run lc es) e.
Proof. unfold run. now rewrite fold_left_app. Qed.

(** C1 does not hold of the code.  The temporary id is made of nothing but
    the clock reading in milliseconds, so after any run of the store two
    calls of [addTask] that read the same millisecond leave a reachable
    state in which two tasks of the collection carry the same id. *)
Theorem same_millisecond_adds_share_an_id
        (lc : LoadClock) (es : list Event) (titleA titleB : string)
        (now createdA createdB : Z) :
  let w := run lc (es ++ [EvAddTask titleA now createdA]
                      ++ [EvAddTask titleB now createdB]) in
  reachable lc w /\
  (2 <= countId (mintTempId now) (tasks w))%nat /\
  ~ NoDup (ids (tasks w)).
Proof.
  intros w. split; [apply reachable_run|].
  assert (Hw : tasks w
               = (tasks (run lc es)
                  ++ [mkTask (mintTempId now) titleA COLUMNS.TODO createdA])
                 ++ [mkTask (mintTempId now) titleB COLUMNS.TODO createdB]).
  { subst w. rewrite app_assoc, !run_snoc. reflexivity. }
  rewrite Hw. split.
  - unfold countId. rewrite !filter_app, !length_app. simpl.
    rewrite String.eqb_refl. simpl. lia.
  - unfold ids. rewrite !map_app, <- app_assoc. simpl.
    intros Hnd. apply NoDup_remove_2 in Hnd. apply Hnd.
    apply in_or_app. right. now left.
Qed.

(** What follows from the shared id: when the first of the two additions
    succeeds, both tasks are replaced by the server's task, so the second
    title is lost and the two tasks share the server's id as well. *)
Lemma same_millisecond_adds_merge_on_success :
  let w := run clock5000
               [EvAddTask "A" 1700000000000 1700000000000;
                EvAddTask "B" 1700000000000 1700000000000;
                EvSettle 0 drawOk] in
  map (fun t => (id t, title t)) (tasks w)
  = [("1", "Design landing page mockup");
     ("2", "Implement authentication flow");
     ("3", "Setup project repository");
     ("1700000001500k3j9x0q2a", "A");
     ("1700000001500k3j9x0q2a", "A")].
Proof. reflexivity. Qed.

(** A second way to a repeated id, without any coincidence of clock
    readings: [logout] while a deletion is in flight brings the seeded task
    back, and the rollback of the deletion then adds it once more. *)
Lemma logout_during_delete_repeats_an_id :
  let w := run clock5000 [EvDeleteTask "1"; EvLogout; EvSettle 0 drawFail] in
  reachable clock5000 w /\ ids (tasks w) = ["3"; "2"; "1"; "1"].
Proof. split; [apply reachable_run | reflexivity]. Qed.

(** * Further properties of the store *)

(** ** The rollback of an addition *)

Lemma countId_dropId (taskId : string) (ts : list Task) :
  countId taskId (dropId taskId ts) = 0%nat.
Proof.
  unfold countId, dropId. induction ts as [|a ts IH]; simpl; [reflexivity|].
  destruct (id a =? taskId)%string eqn:E; simpl; [exact IH|].
  now rewrite E.
Qed.

(** X1.  When [mockAPI.addTask] fails, the failure branch takes every task with
    the temporary id out of the collection, in whatever world the failure
    arrives, and shows the mock API's message.  When nothing happens between
    the call and the failure, and the temporary id was not in use, the
    collection is back to the one before the call. *)
Theorem addTask_failure_removes_optimistic
        (w : World) (title : string) (now1 now2 : Z) (d : MockAPI.Draws)
        (Hfail : failing d) :
  let tempId := mintTempId now1 in
  let k := AwaitAdd tempId (mkTask tempId title COLUMNS.TODO now2) in
  (forall w',
      tasks (resume k d w') = dropId tempId (tasks w') /\
      countId tempId (tasks (resume k d w')) = 0%nat /\
      toasts (resume k d w')
      = toasts w' ++ [ToastError "Failed to add task. Please try again."]) /\
  (countId tempId (tasks w) = 0%nat ->
   tasks (settle (List.length (inflight w)) d (addTask title now1 now2 w))
   = tasks w).
Proof.
  intros tempId k. unfold failing in Hfail. split.
  - intros w'. subst k. simpl. unfold MockAPI.addTask. rewrite Hfail. simpl.
    split; [reflexivity|]. split; [apply countId_dropId|reflexivity].
  - intros Hunused. unfold addTask. fold tempId.
    rewrite settle_await_set. simpl. unfold MockAPI.addTask.
    rewrite Hfail. simpl. unfold dropId. rewrite filter_app. simpl.
    rewrite String.eqb_refl. simpl. rewrite app_nil_r.
    now apply (dropId_absent tempId).
Qed.

Lemma addTask_failure_removes_optimistic_witness :
  failing drawFail /\
  countId (mintTempId 1700000000000) (tasks board) = 0%nat /\
  tasks (settle 0 drawFail (addTask "Write spec" 1700000000000 1700000000000 board))
  = tasks board.
Proof.
  split; [reflexivity|]. split; [reflexivity|].
  exact (proj2 (addTask_failure_removes_optimistic
                  board "Write spec" 1700000000000 1700000000000 drawFail
                  eq_refl) eq_refl).
Defined.

(** ** The rollback of a rename *)

(** X2.  For a task [t] that [taskId] resolves to, [updateTaskTitle] writes
    [newTitle] as it is given and the task is found with it straight away.
    When the mock API then fails, the task is found exactly as it was before
    the call, and in whatever world the failure arrives every task that
    carries [taskId] gets the title kept at the call.  When the mock API
    succeeds, the collection stays as the optimistic step left it. *)
Theorem updateTaskTitle_rollback_restores_title
        (w : World) (taskId newTitle : string) (t : Task)
        (d : MockAPI.Draws)
        (Hfind : findTask taskId (tasks w) = Some t) :
  let w1 := updateTaskTitle taskId newTitle w in
  let k := AwaitUpdate taskId (title t) newTitle in
  let w2 := settle (List.length (inflight w)) d w1 in
  findTask taskId (tasks w1) = Some (with_title t newTitle) /\
  (failing d ->
   findTask taskId (tasks w2) = Some t /\
   toasts w2
   = toasts w ++ [ToastError "Failed to update task. Please try again."] /\
   forall w' t', In t' (tasks (resume k d w')) -> id t' = taskId ->
                 title t' = title t) /\
  (succeeding d ->
   tasks w2 = tasks w1 /\
   toasts w2 = toasts w ++ [ToastSuccess "Task updated successfully!"]).
Proof.
  intros w1 k w2. subst w1 k w2. unfold updateTaskTitle. rewrite Hfind.
  rewrite settle_await_set. simpl. unfold MockAPI.updateTask.
  split; [now rewrite findTask_setTitle, Hfind|]. split.
  - intros Hd. unfold failing in Hd. rewrite Hd. simpl.
    split; [|split; [reflexivity|]].
    + rewrite !findTask_setTitle, Hfind. simpl.
      now rewrite with_title_undo.
    + intros w' t'. unfold setTitle. rewrite in_map_iff.
      intros (a & Ha & _) Hid. subst t'.
      destruct (String.eqb_spec (id a) taskId) as [E|E]; [reflexivity|].
      simpl in Hid. contradiction.
  - intros Hd. unfold succeeding in Hd. rewrite Hd. simpl. auto.
Qed.

Lemma updateTaskTitle_rollback_restores_title_witness :
  let t := mkTask "3" "Setup project repository" "done" 3000 in
  findTask "3" (tasks board) = Some t /\
  failing drawFail /\
  findTask "3" (tasks (updateTaskTitle "3" "  Set up CI " board))
  = Some (with_title t "  Set up CI ") /\
  findTask "3" (tasks (settle 0 drawFail
                         (updateTaskTitle "3" "  Set up CI " board)))
  = Some t.
Proof.
  pose proof (updateTaskTitle_rollback_restores_title
                board "3" "  Set up CI "
                (mkTask "3" "Setup project repository" "done" 3000)
                drawFail eq_refl) as (Happly & Hfail & _).
  split; [reflexivity|]. split; [reflexivity|]. split; [exact Happly|].
  exact (proj1 (Hfail eq_refl)).
Defined.

(** ** Requests, suspended actions and toasts *)





(** ** A task that is being deleted *)

Lemma dropId_not_found (taskId : string) (ts : list Task) :
  findTask taskId (dropId taskId ts) = None.
Proof.
  apply findTask_absent. unfold ids, dropId. rewrite in_map_iff.
  intros (x & Hid & Hx). apply filter_In in Hx. destruct Hx as [_ Hx].
  apply negb_true_iff, String.eqb_neq in Hx. contradiction.
Qed.

Lemma not_found_count (taskId : string) (ts : list Task) :
  findTask taskId ts = None -> countId taskId ts = 0%nat.
Proof.
  unfold findTask, countId. induction ts as [|a ts IH]; simpl; [reflexivity|].
  destruct (id a =? taskId)%string; [discriminate|exact IH].
Qed.

(** X4.  After [deleteTask] no task carries the id, whether the id was found or
    not; so until the mock API settles a second [deleteTask], a [moveTask]
    and an [updateTaskTitle] on that id all return at their guard, and the
    two deletions together make at most one request. *)
Theorem deleted_task_is_out_of_reach
        (w : World) (taskId targetColumn newTitle : string) :
  let w1 := deleteTask taskId w in
  countId taskId (tasks w1) = 0%nat /\
  deleteTask taskId w1 = w1 /\
  moveTask taskId targetColumn w1 = w1 /\
  updateTaskTitle taskId newTitle w1 = w1 /\
  (List.length (requests w1) <= S (List.length (requests w)))%nat.
Proof.
  intros w1.
  assert (Hnone : findTask taskId (tasks w1) = None).
  { subst w1. unfold deleteTask.
    destruct (findTask taskId (tasks w)) eqn:E; simpl; [|exact E].
    apply dropId_not_found. }
  split; [now apply not_found_count|].
  unfold deleteTask at 1, moveTask, updateTaskTitle. rewrite Hnone.
  repeat split.
  subst w1. unfold deleteTask. destruct (findTask taskId (tasks w)); simpl.
  - rewrite length_app. simpl. lia.
  - lia.
Qed.

(** ** What the columns of the board show *)

Lemma columns_at_most_all (ts : list Task) :
  (List.length (filter (fun t => (column t =? COLUMNS.TODO)%string) ts)
   + List.length (filter (fun t => (column t =? COLUMNS.IN_PROGRESS)%string) ts)
   + List.length (filter (fun t => (column t =? COLUMNS.DONE)%string) ts)
   <= List.length ts)%nat.
Proof.
  induction ts as [|a ts IH]; simpl; [lia|].
  destruct (String.eqb_spec (column a) COLUMNS.TODO) as [E1|E1];
    destruct (String.eqb_spec (column a) COLUMNS.IN_PROGRESS) as [E2|E2];
    destruct (String.eqb_spec (column a) COLUMNS.DONE) as [E3|E3];
    simpl; try lia; exfalso;
    unfold COLUMNS.TODO, COLUMNS.IN_PROGRESS, COLUMNS.DONE in *; congruence.
Qed.

Lemma columns_partition (ts : list Task) :
  columnsValid ts ->
  Permutation
    (filter (fun t => (column t =? COLUMNS.TODO)%string) ts
     ++ filter (fun t => (column t =? COLUMNS.IN_PROGRESS)%string) ts
     ++ filter (fun t => (column t =? COLUMNS.DONE)%string) ts)
    ts.
Proof.
  induction ts as [|a ts IH]; intros Hv; [reflexivity|].
  assert (IH' := IH (fun t Ht => Hv t (or_intror Ht))).
  destruct (Hv a (or_introl eq_refl)) as [E|[E|E]]; simpl; rewrite E; simpl.
  - now constructor.
  - symmetry. apply Permutation_cons_app. now symmetry.
  - rewrite app_assoc. symmetry. apply Permutation_cons_app.
    rewrite <- app_assoc. now symmetry.
Qed.

(** X5.  The three columns of the board never show more tasks than the header
    counts, and the header's count of completed tasks is the length of the
    done column.  When every task is in one of the three columns, the
    columns together show exactly the tasks of the collection. *)
Theorem board_columns_cover_valid_tasks (w : World) :
  (List.length (getTasksByColumn COLUMNS.TODO w)
   + List.length (getTasksByColumn COLUMNS.IN_PROGRESS w)
   + List.length (getTasksByColumn COLUMNS.DONE w)
   <= Pages.totalTasks w)%nat /\
  Pages.completedTasks w = List.length (getTasksByColumn COLUMNS.DONE w) /\
  (columnsValid (tasks w) ->
   Permutation (getTasksByColumn COLUMNS.TODO w
                ++ getTasksByColumn COLUMNS.IN_PROGRESS w
                ++ getTasksByColumn COLUMNS.DONE w)
               (tasks w) /\
   (List.length (getTasksByColumn COLUMNS.TODO w)
    + List.length (getTasksByColumn COLUMNS.IN_PROGRESS w)
    + List.length (getTasksByColumn COLUMNS.DONE w)
    = Pages.totalTasks w)%nat).
Proof.
  split; [apply columns_at_most_all|]. split; [reflexivity|].
  intros Hv. pose proof (columns_partition (tasks w) Hv) as Hp.
  split; [exact Hp|].
  apply Permutation_length in Hp. rewrite !length_app in Hp.
  unfold getTasksByColumn, Pages.totalTasks. lia.
Qed.

Lemma board_columns_cover_valid_tasks_witness :
  columnsValid (tasks board) /\
  (List.length (getTasksByColumn COLUMNS.TODO board)
   + List.length (getTasksByColumn COLUMNS.IN_PROGRESS board)
   + List.length (getTasksByColumn COLUMNS.DONE board)
   = Pages.totalTasks board)%nat.
Proof.
  assert (Hv : columnsValid (tasks board)).
  { intros t [<-|[<-|[<-|[]]]]; simpl; auto. }
  split; [exact Hv|].
  exact (proj2 (proj2 (proj2 (board_columns_cover_valid_tasks board)) Hv)).
Defined.

(** X6.  For a task [t] that [taskId] resolves to, right after [moveTask] the
    target column's list holds the moved task and no other column's list
    holds a task with that id.  So when the target is none of the three
    columns of the board, no column shows the task, although the header
    still counts it. *)
Theorem moved_task_shows_only_in_target
        (w : World) (taskId s : string) (t : Task)
        (Hfind : findTask taskId (tasks w) = Some t) :
  let w1 := moveTask taskId s w in
  shownIn s w1 (with_column t s) /\
  (forall c t', shownIn c w1 t' -> id t' = taskId -> c = s) /\
  (s <> COLUMNS.TODO -> s <> COLUMNS.IN_PROGRESS -> s <> COLUMNS.DONE ->
   forall t', id t' = taskId ->
              ~ shownIn COLUMNS.TODO w1 t' /\
              ~ shownIn COLUMNS.IN_PROGRESS w1 t' /\
              ~ shownIn COLUMNS.DONE w1 t') /\
  Pages.totalTasks w1 = Pages.totalTasks w.
Proof.
  intros w1.
  assert (Htasks : tasks w1 = setColumn taskId s (tasks w)).
  { subst w1. unfold moveTask. now rewrite Hfind. }
  assert (Honly : forall c t', shownIn c w1 t' -> id t' = taskId -> c = s).
  { intros c t'. unfold shownIn, getTasksByColumn. rewrite Htasks.
    intros Hin Hid. apply filter_In in Hin. destruct Hin as [Hin Hc].
    apply String.eqb_eq in Hc. unfold setColumn in Hin.
    apply in_map_iff in Hin. destruct Hin as (a & Ha & _). subst t'.
    destruct (String.eqb_spec (id a) taskId) as [E|E].
    - now symmetry.
    - contradiction. }
  split; [|split; [exact Honly|split]].
  - unfold shownIn, getTasksByColumn. rewrite Htasks. apply filter_In. split.
    + destruct (findTask_id _ _ _ Hfind) as [Hid Hin].
      unfold setColumn. apply in_map_iff. exists t. split; [|exact Hin].
      apply String.eqb_eq in Hid. now rewrite Hid.
    + apply String.eqb_refl.
  - intros H1 H2 H3 t' Hid. repeat split; intros Hs;
      apply Honly in Hs; auto.
  - unfold Pages.totalTasks. rewrite Htasks. unfold setColumn.
    apply length_map.
Qed.

Lemma moved_task_shows_only_in_target_witness :
  let t := mkTask "3" "Setup project repository" "done" 3000 in
  findTask "3" (tasks board) = Some t /\
  "archive" <> COLUMNS.TODO /\ "archive" <> COLUMNS.IN_PROGRESS /\
  "archive" <> COLUMNS.DONE /\
  ~ shownIn COLUMNS.DONE (moveTask "3" "archive" board)
            (with_column t "archive") /\
  Pages.totalTasks (moveTask "3" "archive" board) = 3%nat.
Proof.
  pose proof (moved_task_shows_only_in_target
                board "3" "archive"
                (mkTask "3" "Setup project repository" "done" 3000)
                eq_refl) as (_ & _ & Hnone & Htotal).
  assert (H1 : "archive" <> COLUMNS.TODO) by discriminate.
  assert (H2 : "archive" <> COLUMNS.IN_PROGRESS) by discriminate.
  assert (H3 : "archive" <> COLUMNS.DONE) by discriminate.
  split; [reflexivity|]. split; [exact H1|]. split; [exact H2|].
  split; [exact H3|]. split; [|exact Htotal].
  exact (proj2 (proj2 (Hnone H1 H2 H3
                         (with_column
                            (mkTask "3" "Setup project repository" "done" 3000)
                            "archive") eq_refl))).
Defined.

(** X7.  A new task comes last in the list of the to-do column and changes no
    other column's list; after an undisturbed success, with a temporary id
    that was not in use, the server's task is in that same place. *)
Theorem added_task_is_last_in_todo
        (w : World) (title : string) (now1 now2 : Z) (d : MockAPI.Draws) :
  let w1 := addTask title now1 now2 w in
  getTasksByColumn COLUMNS.TODO w1
  = getTasksByColumn COLUMNS.TODO w
    ++ [mkTask (mintTempId now1) title COLUMNS.TODO now2] /\
  (forall c, c <> COLUMNS.TODO ->
             getTasksByColumn c w1 = getTasksByColumn c w) /\
  (succeeding d -> countId (mintTempId now1) (tasks w) = 0%nat ->
   getTasksByColumn COLUMNS.TODO (settle (List.length (inflight w)) d w1)
   = getTasksByColumn COLUMNS.TODO w
     ++ [mkTask (MockAPI.mintId d) title COLUMNS.TODO now2]).
Proof.
  intros w1.
  assert (Htasks : tasks w1
                   = tasks w ++ [mkTask (mintTempId now1) title COLUMNS.TODO now2])
    by reflexivity.
  unfold getTasksByColumn. rewrite Htasks, !filter_app.
  split; [|split].
  - cbn [filter column]. now rewrite String.eqb_refl.
  - intros c Hc. rewrite filter_app. cbn [filter column].
    assert (E : (COLUMNS.TODO =? c)%string = false).
    { apply String.eqb_neq. congruence. }
    rewrite E. apply app_nil_r.
  - intros Hd Hunused. subst w1. unfold addTask.
    rewrite settle_await_set. cbn [resume].
    unfold MockAPI.addTask. unfold succeeding in Hd. rewrite Hd.
    cbn [toast set_tasks tasks]. unfold replaceTemp. rewrite map_app.
    cbn [map id]. rewrite String.eqb_refl.
    rewrite (replaceTemp_absent (mintTempId now1) _ _ Hunused : map _ (tasks w) = tasks w).
    rewrite filter_app. reflexivity.
Qed.

Lemma added_task_is_last_in_todo_witness :
  succeeding drawOk /\
  "done" <> COLUMNS.TODO /\
  countId (mintTempId 1700000000000) (tasks board) = 0%nat /\
  getTasksByColumn "done"
    (addTask "Write spec" 1700000000000 1700000000000 board)
  = getTasksByColumn "done" board /\
  getTasksByColumn COLUMNS.TODO
    (settle 0 drawOk (addTask "Write spec" 1700000000000 1700000000000 board))
  = getTasksByColumn COLUMNS.TODO board
    ++ [mkTask "1700000001500k3j9x0q2a" "Write spec" "todo" 1700000000000].
Proof.
  pose proof (added_task_is_last_in_todo
                board "Write spec" 1700000000000 1700000000000 drawOk)
    as (_ & Hother & Hdone).
  assert (H1 : "done" <> COLUMNS.TODO) by discriminate.
  split; [reflexivity|]. split; [exact H1|]. split; [reflexivity|].
  split; [exact (Hother "done" H1)|].
  exact (Hdone eq_refl eq_refl).
Defined.

(** ** Two moves of one task that overlap *)

Lemma nth_error_at {A : Type} (l rest : list A) (k : A) :
  nth_error (l ++ k :: rest) (List.length l) = Some k.
Proof. induction l; simpl; auto. Qed.

Lemma removeNth_at {A : Type} (l rest : list A) (k : A) :
  removeNth (List.length l) (l ++ k :: rest) = l ++ rest.
Proof. induction l; simpl; congruence. Qed.

Lemma with_column_twice (t : Task) (a b : string) :
  with_column (with_column t a) b = with_column t b.
Proof. reflexivity. Qed.

(** X8.  A second [moveTask] on a task whose first move is still awaited takes
    the optimistic column for its snapshot.  When the two calls settle in the
    order they were made and the first fails, its rollback writes the
    original column over the second move: if the second then succeeds the
    task stays in the original column although the mock API has accepted
    the move, and if the second fails too the task ends in the first target,
    where no accepted move has put it. *)
Theorem overlapping_moves_roll_back_wrongly
        (w : World) (taskId b c : string) (t : Task)
        (d1 d2 : MockAPI.Draws)
        (Hfind : findTask taskId (tasks w) = Some t)
        (Hfirst : failing d1) :
  let n := List.length (inflight w) in
  let w2 := moveTask taskId c (moveTask taskId b w) in
  let w4 := settle n d2 (settle n d1 w2) in
  inflight w2
  = inflight w ++ [AwaitMove taskId (column t) b; AwaitMove taskId b c] /\
  inflight w4 = inflight w /\
  (succeeding d2 ->
   findTask taskId (tasks w4) = Some t /\
   toasts w4
   = toasts w ++ [ToastError "Failed to move task. Please try again.";
                  ToastSuccess "Task moved successfully!"]) /\
  (failing d2 -> findTask taskId (tasks w4) = Some (with_column t b)).
Proof.
  intros n w2 w4.
  assert (Hw2 : w2 = mkWorld
                       (setColumn taskId c (setColumn taskId b (tasks w)))
                       (user w)
                       (inflight w ++ [AwaitMove taskId (column t) b;
                                       AwaitMove taskId b c])
                       (requests w ++ [ReqMoveTask taskId (column t) b;
                                       ReqMoveTask taskId b c])
                       (toasts w)).
  { subst w2. unfold moveTask at 2. rewrite Hfind.
    unfold moveTask. cbn [tasks await set_tasks].
    rewrite findTask_setColumn, Hfind. cbn [option_map].
    unfold await, set_tasks. cbn. now rewrite <- !app_assoc. }
  split; [now rewrite Hw2|].
  assert (Hw3 : settle n d1 w2
                = mkWorld
                    (setColumn taskId (column t)
                       (setColumn taskId c (setColumn taskId b (tasks w))))
                    (user w)
                    (inflight w ++ [AwaitMove taskId b c])
                    (requests w ++ [ReqMoveTask taskId (column t) b;
                                    ReqMoveTask taskId b c])
                    (toasts w
                     ++ [ToastError "Failed to move task. Please try again."])).
  { rewrite Hw2. unfold settle. cbn [inflight]. subst n.
    rewrite nth_error_at, removeNth_at. cbn [resume].
    unfold MockAPI.moveTask. unfold failing in Hfirst. rewrite Hfirst.
    reflexivity. }
  assert (Hfound : findTask taskId
                     (setColumn taskId (column t)
                        (setColumn taskId c (setColumn taskId b (tasks w))))
                   = Some t).
  { rewrite !findTask_setColumn, Hfind. cbn [option_map].
    now destruct t. }
  subst w4. rewrite Hw3. unfold settle. cbn [inflight]. subst n.
  rewrite nth_error_last, removeNth_last. cbn [resume].
  unfold MockAPI.moveTask.
  split; [|split].
  - now destruct (MockAPI.shouldFail (MockAPI.failDraw d2)).
  - intros Hd. unfold succeeding in Hd. rewrite Hd. cbn.
    split; [exact Hfound|]. now rewrite <- app_assoc.
  - intros Hd. unfold failing in Hd. rewrite Hd. cbn [toast set_tasks tasks].
    rewrite findTask_setColumn, Hfound. reflexivity.
Qed.

Lemma overlapping_moves_roll_back_wrongly_witness :
  let t := mkTask "1" "Design landing page mockup" "todo" 5000 in
  let w2 := moveTask "1" "done" (moveTask "1" "inProgress" board) in
  findTask "1" (tasks board) = Some t /\
  failing drawFail /\ succeeding drawOk /\
  findTask "1" (tasks (settle 0 drawOk (settle 0 drawFail w2))) = Some t /\
  findTask "1" (tasks (settle 0 drawFail (settle 0 drawFail w2)))
  = Some (with_column t "inProgress").
Proof.
  pose proof (overlapping_moves_roll_back_wrongly
                board "1" "inProgress" "done"
                (mkTask "1" "Design landing page mockup" "todo" 5000)
                drawFail drawOk eq_refl eq_refl) as (_ & _ & Hok & _).
  pose proof (overlapping_moves_roll_back_wrongly
                board "1" "inProgress" "done"
                (mkTask "1" "Design landing page mockup" "todo" 5000)
                drawFail drawFail eq_refl eq_refl) as (_ & _ & _ & Hfail).
  split; [reflexivity|]. split; [reflexivity|]. split; [reflexivity|].
  split; [exact (proj1 (Hok eq_refl))|exact (Hfail eq_refl)].
Defined.

(** ** Actions that settle after a logout *)

(** What a resumed action does to the collection depends on the collection
    only. *)
Lemma resume_tasks_ext (k : Continuation) (d : MockAPI.Draws) (w w' : World) :
  tasks w = tasks w' -> tasks (resume k d w) = tasks (resume k d w').
Proof.
  intros H. destruct k; cbn [resume];
    unfold MockAPI.addTask, MockAPI.moveTask, MockAPI.deleteTask,
      MockAPI.updateTask;
    destruct (MockAPI.shouldFail (MockAPI.failDraw d));
    cbn [toast set_tasks tasks]; now rewrite ?H.
Qed.

Lemma temp_id_not_seeded (lc : LoadClock) (now1 : Z) :
  countId (mintTempId now1) (initialTasks lc) = 0%nat.
Proof. reflexivity. Qed.

(** X9.  An addition that settles after [logout] leaves the seeded collection as
    it is, whether the mock API succeeds or fails: no seeded task carries a
    temporary id, so neither branch finds a task to replace or to remove. *)
Theorem addition_settling_after_logout_keeps_seed
        (lc : LoadClock) (w : World) (title : string) (now1 now2 : Z)
        (d : MockAPI.Draws) :
  let k := AwaitAdd (mintTempId now1)
                    (mkTask (mintTempId now1) title COLUMNS.TODO now2) in
  tasks (resume k d (logout lc w)) = initialTasks lc /\
  tasks (settle (List.length (inflight w)) d
                (logout lc (addTask title now1 now2 w)))
  = initialTasks lc.
Proof.
  intros k.
  assert (Hk : forall w', tasks w' = initialTasks lc ->
                          tasks (resume k d w') = initialTasks lc).
  { intros w' Hw'. subst k. cbn [resume]. unfold MockAPI.addTask.
    destruct (MockAPI.shouldFail (MockAPI.failDraw d));
      cbn [toast set_tasks tasks]; rewrite Hw'.
    - apply dropId_absent, temp_id_not_seeded.
    - apply replaceTemp_absent, temp_id_not_seeded. }
  split; [now apply Hk|].
  unfold settle, logout, addTask. cbn [inflight await set_tasks].
  rewrite nth_error_last, removeNth_last. now apply Hk.
Qed.

(** X10.  A deletion that fails after [logout] puts its snapshot into the seeded
    collection: the board then holds four tasks, the three seeded ones and
    the snapshot, whatever task the snapshot is. *)
Theorem deletion_failing_after_logout_adds_to_seed
        (lc : LoadClock) (w : World) (taskId : string) (t : Task)
        (d : MockAPI.Draws) (Hfail : failing d) :
  let after := tasks (resume (AwaitDelete taskId t) d (logout lc w)) in
  Permutation after (t :: initialTasks lc) /\
  List.length after = 4%nat /\
  (findTask taskId (tasks w) = Some t ->
   tasks (settle (List.length (inflight w)) d
                 (logout lc (deleteTask taskId w)))
   = after).
Proof.
  intros after.
  assert (Hafter : after = sortByCreatedAt (initialTasks lc ++ [t])).
  { subst after. cbn [resume]. unfold MockAPI.deleteTask.
    unfold failing in Hfail. now rewrite Hfail. }
  assert (Hp : Permutation after (t :: initialTasks lc)).
  { rewrite Hafter, sortByCreatedAt_perm. apply Permutation_app_comm. }
  split; [exact Hp|]. split; [now rewrite (Permutation_length Hp)|].
  intros Hfind. unfold deleteTask. rewrite Hfind.
  unfold settle, logout. cbn [inflight await set_tasks].
  rewrite nth_error_last, removeNth_last.
  subst after. now apply resume_tasks_ext.
Qed.

Lemma deletion_failing_after_logout_adds_to_seed_witness :
  let t := mkTask "1" "Design landing page mockup" "todo" 5000 in
  failing drawFail /\
  findTask "1" (tasks board) = Some t /\
  ids (tasks (settle 0 drawFail (logout clock5000 (deleteTask "1" board))))
  = ["3"; "2"; "1"; "1"] /\
  List.length (tasks (resume (AwaitDelete "1" t) drawFail
                             (logout clock5000 board))) = 4%nat.
Proof.
  pose proof (deletion_failing_after_logout_adds_to_seed
                clock5000 board "1"
                (mkTask "1" "Design landing page mockup" "todo" 5000)
                drawFail eq_refl) as (_ & Hlen & Hrun).
  split; [reflexivity|]. split; [reflexivity|]. split; [|exact Hlen].
  exact (f_equal ids (Hrun eq_refl)).
Defined.

(** ** What a failed deletion keeps *)

(** X11.  When the deleted id was carried by one task only, a deletion that fails
    with nothing in between leaves the collection with exactly the tasks it
    had, each as it was; only their order may have changed. *)
Theorem failed_deletion_keeps_every_task
        (w : World) (taskId : string) (t : Task) (d : MockAPI.Draws)
        (Hfind : findTask taskId (tasks w) = Some t)
        (Hone : countId taskId (tasks w) = 1%nat)
        (Hfail : failing d) :
  Permutation
    (tasks (settle (List.length (inflight w)) d (deleteTask taskId w)))
    (tasks w).
Proof.
  unfold deleteTask. rewrite Hfind. rewrite settle_await_set.
  cbn [resume]. unfold MockAPI.deleteTask.
  unfold failing in Hfail. rewrite Hfail. cbn [toast set_tasks tasks].
  unfold reinsert. rewrite sortByCreatedAt_perm.
  now apply dropId_found_perm.
Qed.

Lemma failed_deletion_keeps_every_task_witness :
  findTask "2" (tasks board)
  = Some (mkTask "2" "Implement authentication flow" "inProgress" 4000) /\
  countId "2" (tasks board) = 1%nat /\
  failing drawFail /\
  Permutation (tasks (settle 0 drawFail (deleteTask "2" board))) (tasks board).
Proof.
  split; [reflexivity|]. split; [reflexivity|]. split; [reflexivity|].
  exact (failed_deletion_keeps_every_task
           board "2"
           (mkTask "2" "Implement authentication flow" "inProgress" 4000)
           drawFail eq_refl eq_refl eq_refl).
Defined.

(** ** Where a restored task lands among tasks created at the same time *)

Lemma insertByCreatedAt_front (a : Task) (l : list Task) :
  (forall h rest, l = h :: rest -> createdAt a <= createdAt h) ->
  insertByCreatedAt a l = a :: l.
Proof.
  destruct l as [|h rest]; intros H; simpl; [reflexivity|].
  specialize (H h rest eq_refl). unfold compareCreatedAt.
  destruct (Z.leb_spec (createdAt a - createdAt h) 0); [reflexivity|lia].
Qed.

Lemma filter_all {A : Type} (p : A -> bool) (l : list A) :
  (forall x, In x l -> p x = true) -> filter p l = l.
Proof.
  induction l as [|a l IH]; intros H; simpl; [reflexivity|].
  rewrite (H a (or_introl eq_refl)). f_equal.
  apply IH. intros x Hx. apply H. now right.
Qed.

Lemma filter_none {A : Type} (p : A -> bool) (l : list A) :
  (forall x, In x l -> p x = false) -> filter p l = [].
Proof.
  induction l as [|a l IH]; intros H; simpl; [reflexivity|].
  rewrite (H a (or_introl eq_refl)).
  apply IH. intros x Hx. apply H. now right.
Qed.

Lemma reinsert_ascending (t : Task) (ts : list Task) :
  StronglySorted byCreatedAt ts ->
  reinsert t ts
  = filter (fun a => createdAt a <=? createdAt t) ts
    ++ t :: filter (fun a => createdAt t <? createdAt a) ts.
Proof.
  unfold reinsert. induction 1 as [|a ts Hs IH Hall]; [reflexivity|].
  cbn [app sortByCreatedAt]. rewrite IH. clear IH.
  rewrite Forall_forall in Hall. unfold byCreatedAt in Hall.
  cbn [filter].
  destruct (Z.leb_spec (createdAt a) (createdAt t)) as [Hle|Hgt].
  - assert (E : (createdAt t <? createdAt a) = false) by (apply Z.ltb_ge; lia).
    rewrite E. cbn [app]. apply insertByCreatedAt_front.
    intros h rest Hh.
    destruct (filter (fun x => createdAt x <=? createdAt t) ts)
      as [|h' l'] eqn:F; cbn [app] in Hh; injection Hh as <- _.
    + exact Hle.
    + apply Hall.
      assert (Hin : In h' (filter (fun x => createdAt x <=? createdAt t) ts))
        by (rewrite F; now left).
      apply filter_In in Hin. tauto.
  - assert (E : (createdAt t <? createdAt a) = true) by (apply Z.ltb_lt; lia).
    rewrite E.
    rewrite (filter_none (fun x => createdAt x <=? createdAt t) ts).
    2:{ intros x Hx. apply Z.leb_gt. specialize (Hall x Hx). lia. }
    rewrite (filter_all (fun x => createdAt t <? createdAt x) ts).
    2:{ intros x Hx. apply Z.ltb_lt. specialize (Hall x Hx). lia. }
    cbn [app insertByCreatedAt]. unfold compareCreatedAt.
    destruct (Z.leb_spec (createdAt a - createdAt t) 0); [lia|].
    f_equal. apply insertByCreatedAt_front.
    intros h rest ->. apply Hall. now left.
Qed.

(** X12.  When a deletion fails in a world whose collection is in ascending order
    of [createdAt], the snapshot goes right after the tasks created at the
    same time or earlier and before the tasks created later, and those keep
    their order; so among tasks created at the same time the restored one
    comes last. *)
Theorem restored_task_follows_its_ties
        (taskId : string) (t : Task) (d : MockAPI.Draws) (w : World)
        (Hfail : failing d)
        (Hsorted : StronglySorted byCreatedAt (tasks w)) :
  tasks (resume (AwaitDelete taskId t) d w)
  = filter (fun a => createdAt a <=? createdAt t) (tasks w)
    ++ t :: filter (fun a => createdAt t <? createdAt a) (tasks w).
Proof.
  cbn [resume]. unfold MockAPI.deleteTask.
  unfold failing in Hfail. rewrite Hfail. cbn [toast set_tasks tasks].
  now apply reinsert_ascending.
Qed.

Lemma restored_task_follows_its_ties_witness :
  let a := mkTask "a" "A" "todo" 10 in
  let b := mkTask "b" "B" "todo" 10 in
  let c := mkTask "c" "C" "done" 30 in
  let w := mkWorld [a; b; c] None [] [] [] in
  failing drawFail /\
  StronglySorted byCreatedAt (tasks (deleteTask "a" w)) /\
  tasks (settle 0 drawFail (deleteTask "a" w)) = [b; a; c].
Proof.
  assert (Hs : StronglySorted byCreatedAt
                 [mkTask "b" "B" "todo" 10; mkTask "c" "C" "done" 30]).
  { unfold byCreatedAt. repeat constructor; simpl; lia. }
  split; [reflexivity|]. split; [exact Hs|].
  exact (restored_task_follows_its_ties
           "a" (mkTask "a" "A" "todo" 10) drawFail
           (mkWorld [mkTask "b" "B" "todo" 10; mkTask "c" "C" "done" 30]
                    None [] [ReqDeleteTask "a"] [])
           eq_refl Hs).
Defined.

(** ** Trimming *)

Lemma trimEnd_cons (c : ascii) (s : string) :
  JS.trimEnd (String c s)
  = match JS.trimEnd s with
    | EmptyString =>
        if JS.isWhiteSpace c then EmptyString else String c EmptyString
    | r => String c r
    end.
Proof. reflexivity. Qed.

Lemma trimEnd_idem (s : string) : JS.trimEnd (JS.trimEnd s) = JS.trimEnd s.
Proof.
  induction s as [|c s IH]; [reflexivity|].
  rewrite trimEnd_cons. destruct (JS.trimEnd s) as [|a r] eqn:E.
  - destruct (JS.isWhiteSpace c) eqn:W; [reflexivity|].
    rewrite trimEnd_cons. cbn [JS.trimEnd]. now rewrite W.
  - rewrite trimEnd_cons, IH. reflexivity.
Qed.

Lemma trimStart_head (s : string) :
  JS.trimStart s = EmptyString \/
  exists c r, JS.trimStart s = String c r /\ JS.isWhiteSpace c = false.
Proof.
  induction s as [|c s IH]; [now left|].
  cbn [JS.trimStart]. destruct (JS.isWhiteSpace c) eqn:W; [exact IH|].
  right. now exists c, s.
Qed.

Lemma trimEnd_keeps_head (c : ascii) (r : string) :
  JS.isWhiteSpace c = false ->
  exists r', JS.trimEnd (String c r) = String c r'.
Proof.
  intros W. rewrite trimEnd_cons. destruct (JS.trimEnd r) as [|a r'].
  - rewrite W. now exists EmptyString.
  - now exists (String a r').
Qed.

(** Trimming a trimmed string changes nothing. *)
Lemma trim_idem (s : string) : JS.trim (JS.trim s) = JS.trim s.
Proof.
  unfold JS.trim.
  destruct (trimStart_head s) as [E|(c & r & E & W)]; rewrite E.
  - reflexivity.
  - destruct (trimEnd_keeps_head c r W) as (r' & E').
    rewrite E'. cbn [JS.trimStart]. rewrite W. rewrite <- E'.
    apply trimEnd_idem.
Qed.

(** ** What the forms pass to the store *)

(** X13.  When the text of the input field does not trim to the empty string,
    [handleSubmit] appends one task whose title is the trimmed text and asks
    the mock API for it; that title is not empty and trimming it again
    changes nothing, so no title that comes from the form is blank or has
    white space at either end. *)
Theorem form_stores_trimmed_titles
        (taskTitle : string) (now1 now2 : Z) (w : World)
        (Hnonblank : JS.trim taskTitle <> "") :
  let t := mkTask (mintTempId now1) (JS.trim taskTitle) COLUMNS.TODO now2 in
  tasks (UI.handleSubmit taskTitle now1 now2 w) = tasks w ++ [t] /\
  requests (UI.handleSubmit taskTitle now1 now2 w)
  = requests w ++ [ReqAddTask t] /\
  title t <> "" /\
  JS.trim (title t) = title t.
Proof.
  intros t. unfold UI.handleSubmit, JS.truthy.
  apply String.eqb_neq in Hnonblank. rewrite Hnonblank. cbn [negb].
  split; [reflexivity|]. split; [reflexivity|].
  split; [now apply String.eqb_neq|apply trim_idem].
Qed.

Lemma form_stores_trimmed_titles_witness :
  JS.trim "  Write spec  " <> "" /\
  tasks (UI.handleSubmit "  Write spec  " 1700000000000 1700000000000 board)
  = tasks board
    ++ [mkTask "temp-1700000000000" "Write spec" "todo" 1700000000000].
Proof.
  assert (H : JS.trim "  Write spec  " <> "") by discriminate.
  split; [exact H|].
  exact (proj1 (form_stores_trimmed_titles
                  "  Write spec  " 1700000000000 1700000000000 board H)).
Defined.

(** X14.  [handleSave] on the card of a task [t] that the card's id resolves to:
    when the edit text trims to the empty string the store is left alone;
    when it does not and the text as typed differs from the card's title,
    the task gets the trimmed text for its title, its other fields staying
    as they were, every task with the card's id has that title, and the mock
    API is asked to rename it.  The second case includes a text that differs
    from the title by white space at its ends only: the rename is then made
    with the title the task already has. *)
Theorem handleSave_renames_with_trimmed_text
        (task : Task) (editTitle : string) (w : World) (t : Task)
        (Hfind : findTask (id task) (tasks w) = Some t) :
  (JS.trim editTitle = "" -> UI.handleSave task editTitle w = w) /\
  (JS.trim editTitle <> "" -> editTitle <> title task ->
   findTask (id task) (tasks (UI.handleSave task editTitle w))
   = Some (with_title t (JS.trim editTitle)) /\
   requests (UI.handleSave task editTitle w)
   = requests w ++ [ReqUpdateTask (id task) (JS.trim editTitle)] /\
   JS.trim (JS.trim editTitle) = JS.trim editTitle /\
   findTask (id task) (tasks (UI.handleSave task editTitle w))
   = Some (mkTask (id t) (JS.trim editTitle) (column t) (createdAt t)) /\
   (forall t', In t' (tasks (UI.handleSave task editTitle w)) ->
               id t' = id task -> title t' = JS.trim editTitle)) /\
  (JS.trim editTitle = title task -> editTitle <> title task ->
   title task <> "" ->
   requests (UI.handleSave task editTitle w)
   = requests w ++ [ReqUpdateTask (id task) (title task)]).
Proof.
  assert (Hcall : JS.trim editTitle <> "" -> editTitle <> title task ->
                  UI.handleSave task editTitle w
                  = updateTaskTitle (id task) (JS.trim editTitle) w).
  { intros H1 H2. unfold UI.handleSave, JS.truthy.
    apply String.eqb_neq in H1, H2. now rewrite H1, H2. }
  split; [|split].
  - intros H. unfold UI.handleSave, JS.truthy. now rewrite H.
  - intros H1 H2. rewrite (Hcall H1 H2). unfold updateTaskTitle.
    rewrite Hfind. cbn [tasks requests await set_tasks].
    rewrite findTask_setTitle, Hfind.
    split; [reflexivity|]. split; [reflexivity|].
    split; [apply trim_idem|]. split; [reflexivity|].
    intros t' Hin Hid. unfold setTitle in Hin. apply in_map_iff in Hin.
    destruct Hin as (a & Ha & _). subst t'.
    destruct (String.eqb_spec (id a) (id task)) as [E|E]; [reflexivity|].
    contradiction.
  - intros H1 H2 H3. rewrite <- H1 in H3. rewrite (Hcall H3 H2).
    unfold updateTaskTitle. rewrite Hfind. now rewrite H1.
Qed.

Lemma handleSave_renames_with_trimmed_text_witness :
  let task := mkTask "2" "Implement authentication flow" "inProgress" 4000 in
  let typed := "Implement authentication flow " in
  findTask (id task) (tasks board) = Some task /\
  JS.trim typed = title task /\ typed <> title task /\ title task <> "" /\
  JS.trim "   " = "" /\
  UI.handleSave task "   " board = board /\
  requests (UI.handleSave task typed board)
  = [ReqUpdateTask "2" "Implement authentication flow"] /\
  JS.trim "  Add login page  " <> "" /\
  "  Add login page  " <> title task /\
  findTask "2" (tasks (UI.handleSave task "  Add login page  " board))
  = Some (mkTask "2" "Add login page" "inProgress" 4000) /\
  requests (UI.handleSave task "  Add login page  " board)
  = [ReqUpdateTask "2" "Add login page"].
Proof.
  assert (H2 : "Implement authentication flow "
               <> "Implement authentication flow") by discriminate.
  assert (H3 : "Implement authentication flow" <> "") by discriminate.
  assert (H4 : JS.trim "  Add login page  " <> "") by discriminate.
  assert (H5 : "  Add login page  " <> "Implement authentication flow")
    by discriminate.
  pose proof (handleSave_renames_with_trimmed_text
                (mkTask "2" "Implement authentication flow" "inProgress" 4000)
                "Implement authentication flow " board
                (mkTask "2" "Implement authentication flow" "inProgress" 4000)
                eq_refl) as (_ & _ & Hpad).
  pose proof (handleSave_renames_with_trimmed_text
                (mkTask "2" "Implement authentication flow" "inProgress" 4000)
                "   " board
                (mkTask "2" "Implement authentication flow" "inProgress" 4000)
                eq_refl) as (Hblank & _).
  pose proof (handleSave_renames_with_trimmed_text
                (mkTask "2" "Implement authentication flow" "inProgress" 4000)
                "  Add login page  " board
                (mkTask "2" "Implement authentication flow" "inProgress" 4000)
                eq_refl) as (_ & Hnew & _).
  destruct (Hnew H4 H5) as (_ & Hreq & _ & Hfound & _).
  split; [reflexivity|]. split; [reflexivity|]. split; [exact H2|].
  split; [exact H3|]. split; [reflexivity|].
  split; [exact (Hblank eq_refl)|]. split; [exact (Hpad eq_refl H2 H3)|].
  split; [exact H4|]. split; [exact H5|].
  split; [exact Hfound|exact Hreq].
Defined.

(** ** Login, logout and the page that is shown *)

(** X15.  [handleLogin] with a name that trims to the empty string sets the
    page's error text and leaves the store alone.  With any other name it
    leaves the error text as it is and stores the trimmed name with the
    clock reading; the collection and the three logs are untouched and [App]
    shows the board.  After [logout], [App] shows the landing page. *)
Theorem login_form_gates_the_board
        (lc : LoadClock) (username : string) (now : Z) (error : string)
        (w : World) :
  (JS.trim username = "" ->
   Pages.handleLogin username now error w = ("Please enter a username", w)) /\
  (JS.trim username <> "" ->
   let w' := snd (Pages.handleLogin username now error w) in
   fst (Pages.handleLogin username now error w) = error /\
   user w' = Some (mkUser (JS.trim username) now) /\
   JS.trim (JS.trim username) = JS.trim username /\
   tasks w' = tasks w /\ inflight w' = inflight w /\
   requests w' = requests w /\ toasts w' = toasts w /\
   Pages.App w' = Pages.BoardPage) /\
  snd (Pages.handleLogin username now error w) = UI.handleLogin username now w /\
  Pages.App (logout lc w) = Pages.LandingPage.
Proof.
  unfold Pages.handleLogin, UI.handleLogin, JS.truthy.
  split; [|split; [|split]].
  - intros H. now rewrite H.
  - intros H. apply String.eqb_neq in H. rewrite H. cbn.
    repeat split. apply trim_idem.
  - now destruct (JS.trim username =? "")%string.
  - reflexivity.
Qed.

Lemma login_form_gates_the_board_witness :
  JS.trim "   " = "" /\ JS.trim " ada " <> "" /\
  Pages.handleLogin "   " 1700000000000 "" board
  = ("Please enter a username", board) /\
  user (snd (Pages.handleLogin " ada " 1700000000000 "" board))
  = Some (mkUser "ada" 1700000000000).
Proof.
  assert (H : JS.trim " ada " <> "") by discriminate.
  pose proof (login_form_gates_the_board
                clock5000 "   " 1700000000000 "" board) as (Hblank & _).
  pose proof (login_form_gates_the_board
                clock5000 " ada " 1700000000000 "" board) as (_ & Hname & _).
  split; [reflexivity|]. split; [exact H|]. split; [exact (Hblank eq_refl)|].
  exact (proj1 (proj2 (Hname H))).
Defined.

(** ** A move and a rename of one task that overlap *)

Lemma findTask_setColumn_any (taskId c : string) (ts : list Task) (t : Task) :
  findTask taskId ts = Some t ->
  findTask taskId (setColumn taskId c ts) = Some (with_column t c).
Proof. intros H. now rewrite findTask_setColumn, H. Qed.

Lemma findTask_setTitle_any (taskId s : string) (ts : list Task) (t : Task) :
  findTask taskId ts = Some t ->
  findTask taskId (setTitle taskId s ts) = Some (with_title t s).
Proof. intros H. now rewrite findTask_setTitle, H. Qed.

(** X16.  A [moveTask] and an [updateTaskTitle] on one task, the second called
    while the first is awaited, settle without disturbing each other: when
    they settle in the order they were made, the task ends with the target
    column or the original one according to the outcome of the move alone,
    and with the new title or the original one according to the outcome of
    the rename alone. *)
Theorem overlapping_move_and_rename_are_independent
        (w : World) (taskId b s : string) (t : Task)
        (d1 d2 : MockAPI.Draws)
        (Hfind : findTask taskId (tasks w) = Some t) :
  let n := List.length (inflight w) in
  let w2 := updateTaskTitle taskId s (moveTask taskId b w) in
  let w4 := settle n d2 (settle n d1 w2) in
  findTask taskId (tasks w4)
  = Some (mkTask (id t)
                 (if MockAPI.shouldFail (MockAPI.failDraw d2)
                  then title t else s)
                 (if MockAPI.shouldFail (MockAPI.failDraw d1)
                  then column t else b)
                 (createdAt t)) /\
  inflight w4 = inflight w /\
  List.length (toasts w4) = S (S (List.length (toasts w))).
Proof.
  intros n w2 w4.
  assert (Hw2 : w2 = mkWorld
                       (setTitle taskId s (setColumn taskId b (tasks w)))
                       (user w)
                       (inflight w ++ [AwaitMove taskId (column t) b;
                                       AwaitUpdate taskId (title t) s])
                       (requests w ++ [ReqMoveTask taskId (column t) b;
                                       ReqUpdateTask taskId s])
                       (toasts w)).
  { subst w2. unfold moveTask. rewrite Hfind.
    unfold updateTaskTitle. cbn [tasks await set_tasks].
    rewrite (findTask_setColumn_any _ _ _ _ Hfind).
    unfold await, set_tasks. cbn. now rewrite <- !app_assoc. }
  set (f1 := MockAPI.shouldFail (MockAPI.failDraw d1)).
  set (f2 := MockAPI.shouldFail (MockAPI.failDraw d2)).
  set (T2 := setTitle taskId s (setColumn taskId b (tasks w))).
  set (T3 := if f1 then setColumn taskId (column t) T2 else T2).
  assert (Hw3 : exists x1,
             settle n d1 w2
             = mkWorld T3 (user w)
                       (inflight w ++ [AwaitUpdate taskId (title t) s])
                       (requests w ++ [ReqMoveTask taskId (column t) b;
                                       ReqUpdateTask taskId s])
                       (toasts w ++ [x1])).
  { rewrite Hw2. unfold settle. cbn [inflight]. subst n.
    rewrite nth_error_at, removeNth_at. cbn [resume app].
    unfold MockAPI.moveTask. subst T3. fold f1.
    destruct f1; eexists; reflexivity. }
  destruct Hw3 as (x1 & Hw3).
  assert (Hw4 : exists x2,
             w4 = mkWorld (if f2 then setTitle taskId (title t) T3 else T3)
                          (user w) (inflight w)
                          (requests w ++ [ReqMoveTask taskId (column t) b;
                                          ReqUpdateTask taskId s])
                          ((toasts w ++ [x1]) ++ [x2])).
  { subst w4. rewrite Hw3. unfold settle. cbn [inflight]. subst n.
    rewrite nth_error_last, removeNth_last. cbn [resume].
    unfold MockAPI.updateTask. fold f2.
    destruct f2; eexists; reflexivity. }
  destruct Hw4 as (x2 & Hw4). rewrite Hw4. cbn [tasks inflight toasts].
  split; [|split; [reflexivity|rewrite !length_app; cbn [List.length]; lia]].
  pose proof (findTask_setTitle_any taskId s _ _
                (findTask_setColumn_any taskId b _ _ Hfind)) as H0.
  fold T2 in H0. subst T3.
  destruct f1, f2.
  - rewrite (findTask_setTitle_any _ (title t) _ _
               (findTask_setColumn_any _ (column t) _ _ H0)).
    now destruct t.
  - rewrite (findTask_setColumn_any _ (column t) _ _ H0). now destruct t.
  - rewrite (findTask_setTitle_any _ (title t) _ _ H0). now destruct t.
  - rewrite H0. now destruct t.
Qed.

Lemma overlapping_move_and_rename_are_independent_witness :
  let t := mkTask "1" "Design landing page mockup" "todo" 5000 in
  let w2 := updateTaskTitle "1" "Design mockup" (moveTask "1" "done" board) in
  findTask "1" (tasks board) = Some t /\
  findTask "1" (tasks (settle 0 drawOk (settle 0 drawFail w2)))
  = Some (mkTask "1" "Design mockup" "todo" 5000).
Proof.
  split; [reflexivity|].
  exact (proj1 (overlapping_move_and_rename_are_independent
                  board "1" "done" "Design mockup"
                  (mkTask "1" "Design landing page mockup" "todo" 5000)
                  drawFail drawOk eq_refl)).
Defined.

(** ** Deleting a task whose addition is still awaited *)

Lemma findTask_appended (taskId : string) (ts : list Task) (x : Task) :
  countId taskId ts = 0%nat -> id x = taskId ->
  findTask taskId (ts ++ [x]) = Some x.
Proof.
  unfold countId, findTask. intros Hc Hx.
  induction ts as [|a ts IH]; cbn [app find filter] in *.
  - apply String.eqb_eq in Hx. now rewrite Hx.
  - destruct (id a =? taskId)%string; [discriminate|]. now apply IH.
Qed.

Lemma dropId_appended (taskId : string) (ts : list Task) (x : Task) :
  countId taskId ts = 0%nat -> id x = taskId ->
  dropId taskId (ts ++ [x]) = ts.
Proof.
  intros Hc Hx. unfold dropId. rewrite filter_app. cbn [filter].
  apply String.eqb_eq in Hx. rewrite Hx. cbn [negb].
  rewrite app_nil_r. now apply dropId_absent.
Qed.

(** X17.  A task can be deleted while its addition is still awaited.  When the
    addition then succeeds, its success branch finds no task to replace;
    when the deletion fails after that, its rollback puts the optimistic
    task back as it was at the deletion.  The collection then holds a task
    with the temporary id for good, and the id that the mock API minted
    for it has not come into the collection. *)
Theorem deleting_an_awaited_addition_can_strand_it
        (w : World) (title : string) (now1 now2 : Z)
        (dAdd dDel : MockAPI.Draws)
        (Hunused : countId (mintTempId now1) (tasks w) = 0%nat)
        (Hok : succeeding dAdd) (Hfail : failing dDel) :
  let tempId := mintTempId now1 in
  let optimisticTask := mkTask tempId title COLUMNS.TODO now2 in
  let n := List.length (inflight w) in
  let w2 := deleteTask tempId (addTask title now1 now2 w) in
  let w4 := settle n dDel (settle n dAdd w2) in
  tasks w2 = tasks w /\
  tasks w4 = sortByCreatedAt (tasks w ++ [optimisticTask]) /\
  In optimisticTask (tasks w4) /\
  inflight w4 = inflight w /\
  (forall t', In t' (tasks w4) -> id t' = MockAPI.mintId dAdd ->
              In t' (tasks w)) /\
  toasts w4
  = toasts w ++ [ToastSuccess "Task added successfully!";
                 ToastError "Failed to delete task. Please try again."].
Proof.
  intros tempId optimisticTask n w2 w4.
  assert (Hw2 : w2 = mkWorld
                       (tasks w) (user w)
                       (inflight w ++ [AwaitAdd tempId optimisticTask;
                                       AwaitDelete tempId optimisticTask])
                       (requests w ++ [ReqAddTask optimisticTask;
                                       ReqDeleteTask tempId])
                       (toasts w)).
  { subst w2. unfold addTask. fold tempId optimisticTask.
    unfold deleteTask. cbn [tasks await set_tasks].
    rewrite (findTask_appended tempId _ optimisticTask Hunused eq_refl).
    unfold await, set_tasks. cbn [tasks user inflight requests toasts].
    rewrite (dropId_appended tempId _ optimisticTask Hunused eq_refl).
    now rewrite <- !app_assoc. }
  assert (Hw3 : settle n dAdd w2
                = mkWorld
                    (tasks w) (user w)
                    (inflight w ++ [AwaitDelete tempId optimisticTask])
                    (requests w ++ [ReqAddTask optimisticTask;
                                    ReqDeleteTask tempId])
                    (toasts w ++ [ToastSuccess "Task added successfully!"])).
  { rewrite Hw2. unfold settle. cbn [inflight]. subst n.
    rewrite nth_error_at, removeNth_at. cbn [resume app].
    unfold MockAPI.addTask. unfold succeeding in Hok. rewrite Hok.
    unfold toast, set_tasks. cbn [tasks user inflight requests toasts].
    now rewrite (replaceTemp_absent tempId _ _ Hunused). }
  assert (Hw4 : w4 = mkWorld
                       (sortByCreatedAt (tasks w ++ [optimisticTask]))
                       (user w) (inflight w)
                       (requests w ++ [ReqAddTask optimisticTask;
                                       ReqDeleteTask tempId])
                       ((toasts w ++ [ToastSuccess "Task added successfully!"])
                        ++ [ToastError
                              "Failed to delete task. Please try again."])).
  { subst w4. rewrite Hw3. unfold settle. cbn [inflight]. subst n.
    rewrite nth_error_last, removeNth_last. cbn [resume].
    unfold MockAPI.deleteTask. unfold failing in Hfail. rewrite Hfail.
    reflexivity. }
  split; [now rewrite Hw2|]. rewrite Hw4. cbn [tasks inflight toasts].
  split; [reflexivity|]. split; [|split; [reflexivity|split]].
  - eapply Permutation_in; [symmetry; apply sortByCreatedAt_perm|].
    apply in_or_app. right. now left.
  - intros t' Hin Hid.
    eapply Permutation_in in Hin; [|apply sortByCreatedAt_perm].
    apply in_app_or in Hin. destruct Hin as [Hin|[<-|[]]]; [exact Hin|].
    exfalso. cbn [id] in Hid. symmetry in Hid.
    exact (mintId_not_temp dAdd now1 Hid).
  - now rewrite <- app_assoc.
Qed.

Lemma deleting_an_awaited_addition_can_strand_it_witness :
  let w2 := deleteTask "temp-1700000000000"
              (addTask "Write spec" 1700000000000 1700000000000 board) in
  countId (mintTempId 1700000000000) (tasks board) = 0%nat /\
  succeeding drawOk /\ failing drawFail /\
  ids (tasks (settle 0 drawFail (settle 0 drawOk w2)))
  = ["3"; "2"; "1"; "temp-1700000000000"].
Proof.
  split; [reflexivity|]. split; [reflexivity|]. split; [reflexivity|].
  exact (f_equal ids
           (proj1 (proj2 (deleting_an_awaited_addition_can_strand_it
                            board "Write spec" 1700000000000 1700000000000
                            drawOk drawFail eq_refl eq_refl eq_refl)))).
Defined.
